(** * A sequential BTC purchase pipeline: shallow embedding and properties

    The program under study is [pipeline/pipeline_btc.py]: a list of filters
    (validation, authentication, currency conversion, fee computation,
    persistence) that share one mutable context dictionary and one mutable
    [Transaction] object, and stop at the first filter that raises.

    Python floats are IEEE 754 binary64 values; they are embedded with the
    standard library's [spec_float], so every arithmetic step of the source
    can be evaluated. *)

From Stdlib Require Import ZArith Bool List String Lia.
From Stdlib Require Import Floats.SpecFloat.
From stdpp Require Import base option gmap strings.

Import ListNotations.
Local Open Scope string_scope.

(** ** Python floats *)

Module PyFloat.

Definition t := spec_float.

Definition prec : Z := 53.
Definition emax : Z := 1024.

Definition mul : t -> t -> t := SFmul prec emax.
Definition add : t -> t -> t := SFadd prec emax.
Definition leb : t -> t -> bool := SFleb.
Definition eqb : t -> t -> bool := SFeqb.

Definition zero : t := S754_zero false.

Definition is_nan (x : t) : bool :=
  match x with S754_nan => true | _ => false end.

(** The binary64 nearest to [n / d] (ties to even), for [0 <= n], [0 < d],
    with sign [s].  This is how a decimal literal such as [0.93] is read
    (93 / 100) and how [round] turns its decimal result back into a
    float. *)
Definition of_ratio (s : bool) (n d : Z) : t :=
  match n with
  | Z0 => S754_zero s
  | _ =>
      let '(mz, ez, lz) := SFdiv_core_binary prec emax n 0 d 0 in
      binary_round_aux prec emax s mz ez lz
  end.

Definition of_Z (n : Z) : t := of_ratio (n <? 0)%Z (Z.abs n) 1.

(** A decimal literal [n / 10^k] with [n >= 0], e.g. [dec 93 2] for
    [0.93]. *)
Definition dec (n : Z) (k : Z) : t := of_ratio false n (10 ^ k).

(** Nearest integer to [n / d], ties to even ([0 <= n], [0 < d]). *)
Definition div_half_even (n d : Z) : Z :=
  let '(q, r) := Z.div_eucl n d in
  match (2 * r ?= d)%Z with
  | Lt => q
  | Gt => (q + 1)%Z
  | Eq => if Z.even q then q else (q + 1)%Z
  end.

(** [round(x, ndigits)] on a float, for [0 <= ndigits]: non-finite values
    and zeros round to themselves; a finite [x] is replaced by the decimal
    with [ndigits] fractional digits nearest to its exact value (ties to
    even), read back as a float. *)
Definition round (x : t) (ndigits : Z) : t :=
  match x with
  | S754_finite s m e =>
      let p := (10 ^ ndigits)%Z in
      let num := (Zpos m * p * 2 ^ Z.max e 0)%Z in
      let den := (2 ^ Z.max (- e) 0)%Z in
      of_ratio s (div_half_even num den) p
  | _ => x
  end.

End PyFloat.

Abbreviation float := PyFloat.t.

(** ** Failures

    [PipelineError] and its four subclasses carry a message.  [KeyError] and
    [AttributeError] are the built-in exceptions a filter meets when the
    context has no ["transaction"] entry, or an entry that is not a
    [Transaction] (the source annotates it [tx: Transaction]). *)

Inductive Exception :=
  | ValidationError (msg : string)
  | AuthError (msg : string)
  | TransformError (msg : string)
  | StorageError (msg : string)
  | KeyError (key : string)
  | AttributeError.

Definition is_PipelineError (e : Exception) : bool :=
  match e with
  | ValidationError _ | AuthError _ | TransformError _ | StorageError _ => true
  | KeyError _ | AttributeError => false
  end.

(** ** Data model *)

Module Transaction.

Record t := mk {
  user_id : string;
  btc_amount : float;
  base_currency : string;
  btc_price_in_base : option float;
  subtotal_base : option float;
  commission_usd : float;
  commission_base : option float;
  total_base : option float;
  ts_epoch : Z
}.

(** Attribute assignments [tx.field = v]. *)
Definition set_btc_price_in_base (v : float) (tx : t) : t :=
  mk (user_id tx) (btc_amount tx) (base_currency tx) (Some v)
     (subtotal_base tx) (commission_usd tx) (commission_base tx)
     (total_base tx) (ts_epoch tx).

Definition set_subtotal_base (v : float) (tx : t) : t :=
  mk (user_id tx) (btc_amount tx) (base_currency tx) (btc_price_in_base tx)
     (Some v) (commission_usd tx) (commission_base tx)
     (total_base tx) (ts_epoch tx).

Definition set_commission_base (v : float) (tx : t) : t :=
  mk (user_id tx) (btc_amount tx) (base_currency tx) (btc_price_in_base tx)
     (subtotal_base tx) (commission_usd tx) (Some v)
     (total_base tx) (ts_epoch tx).

Definition set_total_base (v : float) (tx : t) : t :=
  mk (user_id tx) (btc_amount tx) (base_currency tx) (btc_price_in_base tx)
     (subtotal_base tx) (commission_usd tx) (commission_base tx)
     (Some v) (ts_epoch tx).

(** The class statement.  The dataclass decorator stores each default
    value when the class body is executed; the default of [ts_epoch] is
    the value [int(time.time())] had at that moment.  [clock] is that
    reading, in whole seconds. *)
Record cls := define { default_ts_epoch : Z }.

Definition class_statement (clock : Z) : cls :=
  {| default_ts_epoch := clock |}.

(** [Transaction(user_id=.., btc_amount=.., base_currency=..)], called
    when the clock reads [now].  The generated [__init__] does not read
    the clock: every field left out takes the stored default. *)
Definition new (c : cls) (now : Z)
    (user_id : string) (btc_amount : float) (base_currency : string) : t :=
  mk user_id btc_amount base_currency None None (PyFloat.of_Z 5) None None
     (default_ts_epoch c).

End Transaction.

Module User.

Record t := mk {
  user_id : string;
  name : string;
  active : bool
}.

End User.

(** ** Rate providers *)

Class RateProvider (R : Type) := {
  get_btc_price : R -> string -> Exception + float;
  usd_to : R -> string -> Exception + float
}.

Module FixedRateProvider.

Record t := mk {
  _btc : gmap string float;
  _fx_usd : gmap string float
}.

Definition __init__ : t :=
  {| _btc := <["USD" := PyFloat.of_Z 65000]>
             (<["EUR" := PyFloat.of_Z 61000]>
             (<["GBP" := PyFloat.of_Z 53000]> ∅));
     _fx_usd := <["USD" := PyFloat.of_Z 1]>
                (<["EUR" := PyFloat.dec 93 2]>
                (<["GBP" := PyFloat.dec 80 2]> ∅)) |}.

Definition get_btc_price (self : t) (currency : string) : Exception + float :=
  match _btc self !! currency with
  | None =>
      inl (TransformError ("Moneda no soportada para precio BTC: " ++ currency))
  | Some v => inr v
  end.

Definition usd_to (self : t) (currency : string) : Exception + float :=
  match _fx_usd self !! currency with
  | None => inl (TransformError ("Moneda no soportada para FX: " ++ currency))
  | Some v => inr v
  end.

End FixedRateProvider.

#[global] Instance FixedRateProvider_rates : RateProvider FixedRateProvider.t := {
  get_btc_price := FixedRateProvider.get_btc_price;
  usd_to := FixedRateProvider.usd_to
}.

(** ** The store behind [StorageFilter]

    The [transactions] table of the SQLite file, for a file that
    [sqlite3.connect] opens and records whose [ts_epoch] fits the 64-bit
    INTEGER column.  [seq] is the largest identifier handed out so far
    (AUTOINCREMENT).  [fault] stands for the engine: it tells which error,
    if any, it raises as [sqlite3.DatabaseError] when asked to run the
    INSERT of a given record (a locked or full file, a damaged schema); a
    failed INSERT is not committed. *)

Module Db.

Record row := mk_row {
  id : Z;
  user_id : string;
  btc_amount : option float;
  base_currency : string;
  btc_price_in_base : option float;
  subtotal_base : option float;
  commission_usd : option float;
  commission_base : option float;
  total_base : option float;
  ts_epoch : Z
}.

Record t := mk {
  rows : list row;
  seq : Z;
  fault : Transaction.t -> option string
}.

Definition empty : t := {| rows := []; seq := 0; fault := fun _ => None |}.

(** What a REAL column holds once a float has been bound to it: NULL for
    NaN, [0.0] for either zero, the float itself otherwise. *)
Definition real (x : float) : option float :=
  match x with
  | S754_nan => None
  | S754_zero _ => Some (S754_zero false)
  | S754_infinity _ | S754_finite _ _ _ => Some x
  end.

(** The same for an [Optional[float]] parameter: [None] is bound as NULL. *)
Definition real_opt (x : option float) : option float :=
  match x with
  | None => None
  | Some v => real v
  end.

Definition row_of (i : Z) (tx : Transaction.t) : row :=
  mk_row i (Transaction.user_id tx) (real (Transaction.btc_amount tx))
    (Transaction.base_currency tx)
    (real_opt (Transaction.btc_price_in_base tx))
    (real_opt (Transaction.subtotal_base tx))
    (real (Transaction.commission_usd tx))
    (real_opt (Transaction.commission_base tx))
    (real_opt (Transaction.total_base tx))
    (Transaction.ts_epoch tx).

(** [cur.execute("INSERT ...", (...)); conn.commit()].  The column
    [btc_amount] is declared [REAL NOT NULL]: a row whose amount would be
    NULL is refused with [sqlite3.IntegrityError], a [DatabaseError]. *)
Definition insert (tx : Transaction.t) (d : t) : string + t :=
  match fault d tx with
  | Some e => inl e
  | None =>
      let r := row_of (seq d + 1) tx in
      match btc_amount r with
      | None => inl "NOT NULL constraint failed: transactions.btc_amount"
      | Some _ =>
          inr {| rows := rows d ++ [r];
                 seq := (seq d + 1)%Z;
                 fault := fault d |}
      end
  end.

End Db.

(** ** The processing context and the program state

    The context is a dictionary from string keys to values.  The
    [Transaction] is one mutable object that the caller, the context entry
    ["transaction"] and every filter all refer to: the state keeps that
    object once, in [tx], and the dictionary holds a reference [VTransaction]
    to it. *)

Inductive Value :=
  | VTransaction
  | VUser (u : User.t)
  | VStr (s : string).

Record State := mkState {
  tx : Transaction.t;
  context : gmap string Value;
  db : Db.t
}.

Definition with_tx (f : Transaction.t -> Transaction.t) (s : State) : State :=
  {| tx := f (tx s); context := context s; db := db s |}.

Definition with_context (f : gmap string Value -> gmap string Value)
    (s : State) : State :=
  {| tx := tx s; context := f (context s); db := db s |}.

Definition with_db (d : Db.t) (s : State) : State :=
  {| tx := tx s; context := context s; db := d |}.

(** What a call leaves behind: the state it returns with, or the exception
    it raises together with the state at that moment (objects are mutated in
    place, so whatever was written before the [raise] stays written). *)
Inductive Result :=
  | Ok (s : State)
  | Raise (e : Exception) (s : State).

(** [tx: Transaction = context["transaction"]] *)
Definition get_transaction (s : State) : Exception + Transaction.t :=
  match context s !! "transaction" with
  | None => inl (KeyError "transaction")
  | Some VTransaction => inr (tx s)
  | Some _ => inl AttributeError
  end.

(** ** Filters *)

Definition Filter := State -> Result.

Definition currencies : list string := ["USD"; "EUR"; "GBP"].

Module ValidationFilter.

Record t := mk {}.

Definition process (self : t) (s : State) : Result :=
  match get_transaction s with
  | inl e => Raise e s
  | inr tx =>
      if String.eqb (Transaction.user_id tx) "" then
        Raise (ValidationError "Falta user_id válido.") s
      else if PyFloat.leb (Transaction.btc_amount tx) PyFloat.zero then
        Raise (ValidationError "btc_amount debe ser numérico y > 0.") s
      else if negb (existsb (String.eqb (Transaction.base_currency tx)) currencies) then
        Raise (ValidationError "base_currency debe ser USD, EUR o GBP.") s
      else Ok s
  end.

End ValidationFilter.

Module AuthFilter.

Record t := mk { users : gmap string User.t }.

Definition process (self : t) (s : State) : Result :=
  match get_transaction s with
  | inl e => Raise e s
  | inr tx =>
      match users self !! Transaction.user_id tx with
      | None =>
          Raise (AuthError ("Usuario " ++ Transaction.user_id tx ++ " no existe.")) s
      | Some user =>
          if negb (User.active user) then
            Raise (AuthError ("Usuario " ++ Transaction.user_id tx ++ " está inactivo.")) s
          else Ok (with_context (insert "user" (VUser user)) s)
      end
  end.

End AuthFilter.

Module TransformFilter.

Record t (R : Type) := mk { rates : R }.
Arguments mk {R} _.
Arguments rates {R} _.

Definition process {R} `{RateProvider R} (self : t R) (s : State) : Result :=
  match get_transaction s with
  | inl e => Raise e s
  | inr tx =>
      match get_btc_price (rates self) (Transaction.base_currency tx) with
      | inl e => Raise e s
      | inr price =>
          let s := with_tx (Transaction.set_btc_price_in_base price) s in
          Ok (with_tx (Transaction.set_subtotal_base
                         (PyFloat.round (PyFloat.mul price (Transaction.btc_amount tx)) 2)) s)
      end
  end.

End TransformFilter.

Module FeeFilter.

Record t (R : Type) := mk { rates : R }.
Arguments mk {R} _.
Arguments rates {R} _.

Definition process {R} `{RateProvider R} (self : t R) (s : State) : Result :=
  match get_transaction s with
  | inl e => Raise e s
  | inr tx =>
      match Transaction.subtotal_base tx with
      | None =>
          Raise (TransformError "Falta subtotal_base; ejecute TransformFilter antes.") s
      | Some subtotal =>
          match usd_to (rates self) (Transaction.base_currency tx) with
          | inl e => Raise e s
          | inr fx =>
              let commission :=
                PyFloat.round (PyFloat.mul (Transaction.commission_usd tx) fx) 2 in
              let s := with_tx (Transaction.set_commission_base commission) s in
              Ok (with_tx (Transaction.set_total_base
                             (PyFloat.round (PyFloat.add subtotal commission) 2)) s)
          end
      end
  end.

End FeeFilter.

Module StorageFilter.

(** The file at [db_path] is the store [db] of the state; [process] is
    modelled for a file that [sqlite3.connect] opens and a record whose
    parameters SQLite can bind, so the only errors the INSERT meets are the
    engine's [sqlite3.DatabaseError]s. *)
Record t := mk { db_path : string }.

Definition is_None {A} (v : option A) : bool :=
  match v with None => true | Some _ => false end.

Definition process (self : t) (s : State) : Result :=
  match get_transaction s with
  | inl e => Raise e s
  | inr tx =>
      let required :=
        [Transaction.subtotal_base tx; Transaction.total_base tx;
         Transaction.commission_base tx; Transaction.btc_price_in_base tx] in
      if existsb is_None required then
        Raise (StorageError "Transacción incompleta; verifique filtros previos.") s
      else
        match Db.insert tx (db s) with
        | inl e => Raise (StorageError ("Error al guardar en SQLite: " ++ e)) s
        | inr d =>
            Ok (with_context (insert "storage_result" (VStr "ok")) (with_db d s))
        end
  end.

End StorageFilter.

(** ** The pipeline *)

Module Pipeline.

Record t := mk { filters : list Filter }.

(** [for f in self.filters: context = f.process(context)] *)
Fixpoint loop (fs : list Filter) (s : State) : Result :=
  match fs with
  | [] => Ok s
  | f :: rest =>
      match f s with
      | Ok s' => loop rest s'
      | Raise e s' => Raise e s'
      end
  end.

(** The number of [process] calls the loop makes. *)
Fixpoint calls (fs : list Filter) (s : State) : nat :=
  match fs with
  | [] => 0
  | f :: rest =>
      match f s with
      | Ok s' => S (calls rest s')
      | Raise _ _ => 1
      end
  end.

(** The state just before the first filter: a fresh context that holds
    the transaction and nothing else. *)
Definition start (transaction : Transaction.t) (d : Db.t) : State :=
  {| tx := transaction; context := {["transaction" := VTransaction]}; db := d |}.

Definition run (self : t) (transaction : Transaction.t) (d : Db.t) : Result :=
  loop (filters self) (start transaction d).

End Pipeline.

Definition load_mock_users : gmap string User.t :=
  list_to_map
    (map (fun u => (User.user_id u, u))
       [User.mk "u001" "Alice" true;
        User.mk "u002" "Bob" true;
        User.mk "u003" "Carol" false]).

(** The pipeline that [main] builds, for any user index and rate provider. *)
Definition pipeline_of {R} `{RateProvider R}
    (users : gmap string User.t) (rates : R) : Pipeline.t :=
  Pipeline.mk
    [ValidationFilter.process ValidationFilter.mk;
     AuthFilter.process (AuthFilter.mk users);
     TransformFilter.process (TransformFilter.mk rates);
     FeeFilter.process (FeeFilter.mk rates);
     StorageFilter.process (StorageFilter.mk "transactions.db")].

Definition main_pipeline : Pipeline.t :=
  pipeline_of load_mock_users FixedRateProvider.__init__.

(** ** The batch loop of [main]

    [main] runs each example through the pipeline inside
    [try ... except PipelineError], collects one report entry per example in
    [results] and prints the list as JSON.  The model stops at [results]; the
    JSON text is not produced.  Each example is an object of its own, and the
    store is the one file all the runs write to. *)

(** [asdict(obj)]: the fields of a dataclass instance, copied. *)
Inductive AsDict :=
  | DictTransaction (t : Transaction.t)
  | DictUser (u : User.t).

Definition asdict (v : Value) (s : State) : option AsDict :=
  match v with
  | VTransaction => Some (DictTransaction (tx s))
  | VUser u => Some (DictUser u)
  | VStr _ => None
  end.

Inductive Entry :=
  | EntryOk (transaction : Transaction.t) (user : AsDict)
            (storage_result : option Value)
  | EntryError (error : string) (message : string) (transaction : Transaction.t).

(** What leaves [main] uncaught: an exception that is not a [PipelineError],
    or the [TypeError] of [asdict] on something that is not a dataclass. *)
Inductive Uncaught :=
  | Propagated (e : Exception)
  | TypeError.

(** [except PipelineError as e]: the class name [type(e).__name__] and the
    text [str(e)] of a caught failure; nothing for the other exceptions. *)
Definition except_PipelineError (e : Exception) : option (string * string) :=
  match e with
  | ValidationError msg => Some ("ValidationError", msg)
  | AuthError msg => Some ("AuthError", msg)
  | TransformError msg => Some ("TransformError", msg)
  | StorageError msg => Some ("StorageError", msg)
  | KeyError _ | AttributeError => None
  end.

(** [for tx in examples: try: ... except PipelineError as e: ...] *)
Fixpoint main_loop (pipeline : Pipeline.t) (examples : list Transaction.t)
    (d : Db.t) (results : list Entry) : Uncaught * Db.t + list Entry * Db.t :=
  match examples with
  | [] => inr (results, d)
  | t :: rest =>
      match Pipeline.run pipeline t d with
      | Ok s =>
          match context s !! "user" with
          | None => inl (Propagated (KeyError "user"), db s)
          | Some v =>
              match asdict v s with
              | None => inl (TypeError, db s)
              | Some user =>
                  main_loop pipeline rest (db s)
                    (results ++ [EntryOk (tx s) user (context s !! "storage_result")])
              end
          end
      | Raise e s =>
          match except_PipelineError e with
          | Some (error, message) =>
              main_loop pipeline rest (db s)
                (results ++ [EntryError error message (tx s)])
          | None => inl (Propagated e, db s)
          end
      end
  end.

(** [main()], called when the clock reads [now] after a class statement
    [cls], on the store [d]: the list it prints and the store it leaves. *)
Definition main (cls : Transaction.cls) (now : Z) (d : Db.t)
    : Uncaught * Db.t + list Entry * Db.t :=
  let users := load_mock_users in
  let rates := FixedRateProvider.__init__ in
  let pipeline := pipeline_of users rates in
  let examples :=
    [Transaction.new cls now "u001" (PyFloat.dec 1 2) "USD";
     Transaction.new cls now "u002" (PyFloat.dec 5 2) "EUR";
     Transaction.new cls now "u001" (PyFloat.dec 3 3) "GBP"] in
  main_loop pipeline examples d [].

Definition is_EntryOk (x : Entry) : bool :=
  match x with EntryOk _ _ _ => true | EntryError _ _ _ => false end.

(** ** Notions used in the statements below *)

(** The identifiers of the stored rows are pairwise distinct and none is
    above the AUTOINCREMENT counter. *)
Definition ids_fresh (d : Db.t) : Prop :=
  NoDup (map Db.id (Db.rows d)) /\
  Forall (fun r => (Db.id r <= Db.seq d)%Z) (Db.rows d).

(** Two transactions agree on the five fields the caller supplies. *)
Definition same_input (t t' : Transaction.t) : Prop :=
  Transaction.user_id t' = Transaction.user_id t /\
  Transaction.btc_amount t' = Transaction.btc_amount t /\
  Transaction.base_currency t' = Transaction.base_currency t /\
  Transaction.commission_usd t' = Transaction.commission_usd t /\
  Transaction.ts_epoch t' = Transaction.ts_epoch t.

(** What a report entry says about the example [t] it was made for, given
    the user directory. *)
Definition entry_for (users : gmap string User.t) (t : Transaction.t)
    (x : Entry) : Prop :=
  match x with
  | EntryOk t' user storage_result =>
      same_input t t' /\
      is_Some (Transaction.btc_price_in_base t') /\
      is_Some (Transaction.subtotal_base t') /\
      is_Some (Transaction.commission_base t') /\
      is_Some (Transaction.total_base t') /\
      storage_result = Some (VStr "ok") /\
      exists u,
        user = DictUser u /\
        users !! Transaction.user_id t = Some u /\
        User.active u = true
  | EntryError error message t' =>
      In error ["ValidationError"; "AuthError"; "StorageError"] /\
      same_input t t'
  end.

(** The state a call leaves, whether it returned or raised. *)
Definition state_of (r : Result) : State :=
  match r with Ok s => s | Raise _ s => s end.

(** A float that is NaN or carries a plus sign. *)
Definition nan_or_plus (x : float) : Prop :=
  match x with
  | S754_nan => True
  | S754_zero s | S754_infinity s | S754_finite s _ _ => s = false
  end.

(** ** Example transactions *)

(** The transactions that [main] runs first and second, built after a class
    statement executed at clock [1000]. *)
Definition example_A : Transaction.t :=
  Transaction.new (Transaction.class_statement 1000) 2000
    "u001" (PyFloat.dec 1 2) "USD".

Definition example_B : Transaction.t :=
  Transaction.new (Transaction.class_statement 1000) 2000
    "u002" (PyFloat.dec 5 2) "EUR".

(** The first example with a commission that is not a number. *)
Definition example_nan_commission : Transaction.t :=
  Transaction.mk "u001" (PyFloat.dec 1 2) "USD" None None S754_nan None None 1000.

(** An inactive user of the mock directory. *)
Definition example_C : Transaction.t :=
  Transaction.new (Transaction.class_statement 1000) 2000
    "u003" (PyFloat.dec 2 2) "USD".

(** An identifier the mock directory does not know. *)
Definition example_D : Transaction.t :=
  Transaction.new (Transaction.class_statement 1000) 2000
    "u999" (PyFloat.dec 2 2) "USD".

(** The first example as the conversion and fee filters leave it. *)
Definition example_A_complete : Transaction.t :=
  Transaction.mk "u001" (PyFloat.dec 1 2) "USD"
    (Some (PyFloat.dec 650000 1)) (Some (PyFloat.dec 65000 2))
    (PyFloat.dec 500 2) (Some (PyFloat.dec 500 2))
    (Some (PyFloat.dec 65500 2)) 1000.

(** * Properties *)

(** ** Reading the transaction out of the context *)

Lemma get_transaction_inr s t :
  get_transaction s = inr t <->
  context s !! "transaction" = Some VTransaction /\ t = tx s.
Proof.
  unfold get_transaction.
  destruct (context s !! "transaction") as [[]|]; split;
    intros H; try discriminate; try (destruct H; discriminate).
  - injection H as <-. auto.
  - destruct H as [_ ->]. reflexivity.
Qed.

Lemma get_transaction_present s :
  context s !! "transaction" = Some VTransaction ->
  get_transaction s = inr (tx s).
Proof. intros H. apply get_transaction_inr. auto. Qed.

Lemma get_transaction_start t d :
  get_transaction (Pipeline.start t d) = inr t.
Proof. reflexivity. Qed.

Lemma get_transaction_with_tx f s :
  get_transaction (with_tx f s) =
  match get_transaction s with inl e => inl e | inr t => inr (f t) end.
Proof.
  unfold get_transaction, with_tx; simpl.
  destruct (context s !! "transaction") as [[]|]; reflexivity.
Qed.

(** ** What each filter does when it returns, and when it raises *)

Ltac case_get_transaction s t E :=
  destruct (get_transaction s) as [?|t] eqn:E;
  [ try discriminate | apply get_transaction_inr in E as [E ->] ].

Lemma ValidationFilter_Ok self s s' :
  ValidationFilter.process self s = Ok s' ->
  s' = s /\
  context s !! "transaction" = Some VTransaction /\
  Transaction.user_id (tx s) <> "" /\
  PyFloat.leb (Transaction.btc_amount (tx s)) PyFloat.zero = false /\
  In (Transaction.base_currency (tx s)) currencies.
Proof.
  unfold ValidationFilter.process.
  case_get_transaction s t E.
  destruct (String.eqb (Transaction.user_id (tx s)) "") eqn:Eu; [discriminate|].
  destruct (PyFloat.leb _ _) eqn:Ea; [discriminate|].
  destruct (existsb _ _) eqn:Ec; simpl; [|discriminate].
  intros [= <-]. repeat split; auto.
  - apply String.eqb_neq; exact Eu.
  - apply existsb_exists in Ec as (c & Hin & Hc).
    apply String.eqb_eq in Hc. subst c. exact Hin.
Qed.

Lemma ValidationFilter_Raise self s e s' :
  ValidationFilter.process self s = Raise e s' -> s' = s.
Proof.
  unfold ValidationFilter.process.
  destruct (get_transaction s); [congruence|].
  repeat (match goal with |- context [if ?b then _ else _] => destruct b end);
    congruence.
Qed.

Lemma AuthFilter_Ok self s s' :
  AuthFilter.process self s = Ok s' ->
  exists u,
    context s !! "transaction" = Some VTransaction /\
    AuthFilter.users self !! Transaction.user_id (tx s) = Some u /\
    User.active u = true /\
    s' = with_context (insert "user" (VUser u)) s.
Proof.
  unfold AuthFilter.process.
  case_get_transaction s t E.
  destruct (AuthFilter.users self !! _) as [u|] eqn:Hu; [|discriminate].
  destruct (User.active u) eqn:Ha; simpl; [|discriminate].
  intros [= <-]. exists u. auto.
Qed.

Lemma AuthFilter_Raise self s e s' :
  AuthFilter.process self s = Raise e s' -> s' = s.
Proof.
  unfold AuthFilter.process.
  destruct (get_transaction s); [congruence|].
  destruct (AuthFilter.users self !! _) as [u|]; [|congruence].
  destruct (negb (User.active u)); congruence.
Qed.

Section WithRates.

Context {R : Type} `{RateProvider R}.

Lemma TransformFilter_Ok (self : TransformFilter.t R) s s' :
  TransformFilter.process self s = Ok s' ->
  exists price,
    context s !! "transaction" = Some VTransaction /\
    get_btc_price (TransformFilter.rates self)
      (Transaction.base_currency (tx s)) = inr price /\
    s' = with_tx (Transaction.set_subtotal_base
                    (PyFloat.round
                       (PyFloat.mul price (Transaction.btc_amount (tx s))) 2))
           (with_tx (Transaction.set_btc_price_in_base price) s).
Proof.
  unfold TransformFilter.process.
  case_get_transaction s t E.
  destruct (get_btc_price _ _) as [?|price] eqn:Hp; [discriminate|].
  intros [= <-]. exists price. auto.
Qed.

Lemma TransformFilter_Raise (self : TransformFilter.t R) s e s' :
  TransformFilter.process self s = Raise e s' -> s' = s.
Proof.
  unfold TransformFilter.process.
  destruct (get_transaction s); [congruence|].
  destruct (get_btc_price _ _); congruence.
Qed.

Lemma FeeFilter_Ok (self : FeeFilter.t R) s s' :
  FeeFilter.process self s = Ok s' ->
  exists subtotal fx,
    context s !! "transaction" = Some VTransaction /\
    Transaction.subtotal_base (tx s) = Some subtotal /\
    usd_to (FeeFilter.rates self) (Transaction.base_currency (tx s)) = inr fx /\
    let commission :=
      PyFloat.round (PyFloat.mul (Transaction.commission_usd (tx s)) fx) 2 in
    s' = with_tx (Transaction.set_total_base
                    (PyFloat.round (PyFloat.add subtotal commission) 2))
           (with_tx (Transaction.set_commission_base commission) s).
Proof.
  unfold FeeFilter.process.
  case_get_transaction s t E.
  destruct (Transaction.subtotal_base (tx s)) as [sub|] eqn:Hs; [|discriminate].
  destruct (usd_to _ _) as [?|fx] eqn:Hfx; [discriminate|].
  intros [= <-]. exists sub, fx. auto.
Qed.

Lemma FeeFilter_Raise (self : FeeFilter.t R) s e s' :
  FeeFilter.process self s = Raise e s' -> s' = s.
Proof.
  unfold FeeFilter.process.
  destruct (get_transaction s); [congruence|].
  destruct (Transaction.subtotal_base _); [|congruence].
  destruct (usd_to _ _); congruence.
Qed.

End WithRates.

Lemma StorageFilter_Ok self s s' :
  StorageFilter.process self s = Ok s' ->
  exists d,
    context s !! "transaction" = Some VTransaction /\
    is_Some (Transaction.btc_price_in_base (tx s)) /\
    is_Some (Transaction.subtotal_base (tx s)) /\
    is_Some (Transaction.commission_base (tx s)) /\
    is_Some (Transaction.total_base (tx s)) /\
    Db.insert (tx s) (db s) = inr d /\
    s' = with_context (insert "storage_result" (VStr "ok")) (with_db d s).
Proof.
  unfold StorageFilter.process.
  case_get_transaction s t E.
  destruct (existsb _ _) eqn:Hreq; [discriminate|].
  destruct (Db.insert _ _) as [?|d] eqn:Hd; [discriminate|].
  intros [= <-]. exists d.
  simpl in Hreq.
  destruct (Transaction.subtotal_base (tx s)), (Transaction.total_base (tx s)),
    (Transaction.commission_base (tx s)), (Transaction.btc_price_in_base (tx s));
    simpl in Hreq; try discriminate.
  repeat split; eauto.
Qed.

Lemma StorageFilter_Raise self s e s' :
  StorageFilter.process self s = Raise e s' -> s' = s.
Proof.
  unfold StorageFilter.process.
  destruct (get_transaction s); [congruence|].
  destruct (existsb _ _); [congruence|].
  destruct (Db.insert _ _); congruence.
Qed.

(** ** The loop *)

Lemma loop_app pre post s0 s1 :
  Pipeline.loop pre s0 = Ok s1 ->
  Pipeline.loop (pre ++ post) s0 = Pipeline.loop post s1.
Proof.
  revert s0. induction pre as [|g pre IH]; intros s0; simpl.
  - intros [= ->]. reflexivity.
  - destruct (g s0) as [s|e s]; [apply IH | discriminate].
Qed.

Lemma calls_app pre post s0 s1 :
  Pipeline.loop pre s0 = Ok s1 ->
  Pipeline.calls (pre ++ post) s0 = length pre + Pipeline.calls post s1.
Proof.
  revert s0. induction pre as [|g pre IH]; intros s0; simpl.
  - intros [= ->]. reflexivity.
  - destruct (g s0) as [s|e s]; [|discriminate].
    intros Hpre. rewrite (IH _ Hpre). reflexivity.
Qed.

(** ** A successful run of the five filters, end to end *)

Section MainPipeline.

Context {R : Type} `{RateProvider R}.
Variable users : gmap string User.t.
Variable rates : R.

Lemma run_Ok_inv t d s' :
  Pipeline.run (pipeline_of users rates) t d = Ok s' ->
  exists u price fx d',
    users !! Transaction.user_id t = Some u /\
    User.active u = true /\
    get_btc_price rates (Transaction.base_currency t) = inr price /\
    usd_to rates (Transaction.base_currency t) = inr fx /\
    let subtotal := PyFloat.round (PyFloat.mul price (Transaction.btc_amount t)) 2 in
    let commission := PyFloat.round (PyFloat.mul (Transaction.commission_usd t) fx) 2 in
    let total := PyFloat.round (PyFloat.add subtotal commission) 2 in
    let t' :=
      Transaction.mk (Transaction.user_id t) (Transaction.btc_amount t)
        (Transaction.base_currency t) (Some price) (Some subtotal)
        (Transaction.commission_usd t) (Some commission) (Some total)
        (Transaction.ts_epoch t) in
    Db.insert t' d = inr d' /\
    s' = {| tx := t';
            context := <["storage_result" := VStr "ok"]>
                         (<["user" := VUser u]> {["transaction" := VTransaction]});
            db := d' |}.
Proof.
  unfold Pipeline.run, pipeline_of; simpl.
  destruct (ValidationFilter.process _ _) as [s1|] eqn:E1; [|discriminate].
  apply ValidationFilter_Ok in E1 as (-> & _).
  destruct (AuthFilter.process _ _) as [s2|] eqn:E2; [|discriminate].
  apply AuthFilter_Ok in E2 as (u & _ & Hu & Ha & ->).
  destruct (TransformFilter.process _ _) as [s3|] eqn:E3; [|discriminate].
  apply TransformFilter_Ok in E3 as (price & _ & Hp & ->).
  destruct (FeeFilter.process _ _) as [s4|] eqn:E4; [|discriminate].
  apply FeeFilter_Ok in E4 as (sub & fx & _ & Hs & Hfx & ->).
  simpl in Hs, Hfx, Hp, Hu. injection Hs as <-.
  destruct (StorageFilter.process _ _) as [s5|] eqn:E5; [|discriminate].
  apply StorageFilter_Ok in E5 as (d' & _ & _ & _ & _ & _ & Hd & ->).
  intros [= <-].
  exists u, price, fx, d'. simpl in *. auto 10.
Qed.

End MainPipeline.

(** Python's [==] between a float and itself: [True] unless the float is
    NaN, which compares unequal to everything, itself included. *)
Lemma PyFloat_eqb_refl (x : float) :
  PyFloat.eqb x x = negb (PyFloat.is_nan x).
Proof.
  unfold PyFloat.eqb, SFeqb.
  destruct x as [[]|[]| |[] m e]; simpl; try reflexivity;
    rewrite Z.compare_refl, Pos.compare_cont_refl; reflexivity.
Qed.

(** C1, as the code has it.  After a successful run of the pipeline the
    transaction's price, subtotal, commission and total are all set: the
    price is the provider's, the subtotal is price times amount rounded to
    two decimals, the commission is the USD commission times the USD rate
    rounded to two decimals, and the total holds the value of
    [round(subtotal_base + commission_base, 2)].  Python's comparison
    [total_base == round(subtotal_base + commission_base, 2)] is true exactly
    when that total is not NaN. *)
Theorem run_success_total {R : Type} `{RateProvider R}
    (users : gmap string User.t) (rates : R) (t : Transaction.t) (d : Db.t)
    (s' : State) :
  Pipeline.run (pipeline_of users rates) t d = Ok s' ->
  exists price fx subtotal commission total,
    get_btc_price rates (Transaction.base_currency t) = inr price /\
    usd_to rates (Transaction.base_currency t) = inr fx /\
    Transaction.btc_price_in_base (tx s') = Some price /\
    Transaction.subtotal_base (tx s') = Some subtotal /\
    Transaction.commission_base (tx s') = Some commission /\
    Transaction.total_base (tx s') = Some total /\
    subtotal = PyFloat.round (PyFloat.mul price (Transaction.btc_amount t)) 2 /\
    commission = PyFloat.round (PyFloat.mul (Transaction.commission_usd t) fx) 2 /\
    total = PyFloat.round (PyFloat.add subtotal commission) 2 /\
    PyFloat.eqb total (PyFloat.round (PyFloat.add subtotal commission) 2)
      = negb (PyFloat.is_nan total).
Proof.
  intros Hrun.
  apply run_Ok_inv in Hrun as (u & price & fx & d' & _ & _ & Hp & Hfx & _ & ->).
  simpl. eexists price, fx, _, _, _.
  repeat (split; [first [eassumption | reflexivity]|]).
  apply PyFloat_eqb_refl.
Qed.

Lemma run_success_total_witness :
  let r := Pipeline.run main_pipeline example_A Db.empty in
  r = Ok (state_of r) /\
  exists price fx subtotal commission total,
    get_btc_price FixedRateProvider.__init__ "USD" = inr price /\
    usd_to FixedRateProvider.__init__ "USD" = inr fx /\
    Transaction.btc_price_in_base (tx (state_of r)) = Some price /\
    Transaction.subtotal_base (tx (state_of r)) = Some subtotal /\
    Transaction.commission_base (tx (state_of r)) = Some commission /\
    Transaction.total_base (tx (state_of r)) = Some total /\
    subtotal = PyFloat.round (PyFloat.mul price (PyFloat.dec 1 2)) 2 /\
    commission = PyFloat.round (PyFloat.mul (PyFloat.of_Z 5) fx) 2 /\
    total = PyFloat.round (PyFloat.add subtotal commission) 2 /\
    PyFloat.eqb total (PyFloat.round (PyFloat.add subtotal commission) 2)
      = negb (PyFloat.is_nan total).
Proof.
  intros r.
  assert (Hrun : r = Ok (state_of r)) by (vm_compute; reflexivity).
  split; [exact Hrun|].
  exact (run_success_total load_mock_users FixedRateProvider.__init__
           example_A Db.empty (state_of r) Hrun).
Defined.

(** C1 as the claim words it fails: with a commission of NaN US dollars the
    run succeeds, the four fields are set, and the total it leaves does not
    compare equal to [round(subtotal_base + commission_base, 2)]. *)
Lemma run_success_total_counterexample :
  let r := Pipeline.run main_pipeline example_nan_commission Db.empty in
  r = Ok (state_of r) /\
  Transaction.btc_price_in_base (tx (state_of r)) = Some (PyFloat.dec 650000 1) /\
  Transaction.subtotal_base (tx (state_of r)) = Some (PyFloat.dec 65000 2) /\
  Transaction.commission_base (tx (state_of r)) = Some S754_nan /\
  Transaction.total_base (tx (state_of r)) = Some S754_nan /\
  PyFloat.eqb S754_nan
    (PyFloat.round (PyFloat.add (PyFloat.dec 65000 2) S754_nan) 2) = false.
Proof.
  intros r. repeat split; vm_compute; reflexivity.
Qed.

(** ** Failing runs *)

(** None of the five filters writes anything before it raises. *)
Lemma stage_Raise_keeps_state {R : Type} `{RateProvider R}
    (users : gmap string User.t) (rates : R) (f : Filter) s e s' :
  In f (Pipeline.filters (pipeline_of users rates)) ->
  f s = Raise e s' -> s' = s.
Proof.
  simpl. intros [<-|[<-|[<-|[<-|[<-|[]]]]]].
  - apply ValidationFilter_Raise.
  - apply AuthFilter_Raise.
  - apply TransformFilter_Raise.
  - apply FeeFilter_Raise.
  - apply StorageFilter_Raise.
Qed.

(** C2.  The first filter that raises ends the run: whatever filters follow
    it, the run raises that same failure, in the state the failing call left
    behind (so the writes of the earlier filters are all still there), and
    the loop has made one [process] call per earlier filter plus the failing
    one.  For the five filters of [main] the state at the failure is exactly
    the state the earlier filters produced.  In particular a failure of the
    validation filter is the failure of the run, after a single [process]
    call, with the transaction, the context and the store as they were at
    the start. *)
Theorem first_failure_short_circuits :
  (forall (pre post : list Filter) (f : Filter) s0 s1 e s2,
      Pipeline.loop pre s0 = Ok s1 ->
      f s1 = Raise e s2 ->
      Pipeline.loop (pre ++ f :: post) s0 = Raise e s2 /\
      Pipeline.calls (pre ++ f :: post) s0 = S (length pre)) /\
  (forall (R : Type) (HR : RateProvider R) (users : gmap string User.t)
          (rates : R) (pre post : list Filter) (f : Filter) t d s1 e s2,
      Pipeline.filters (pipeline_of users rates) = (pre ++ f :: post)%list ->
      Pipeline.loop pre (Pipeline.start t d) = Ok s1 ->
      f s1 = Raise e s2 ->
      Pipeline.run (pipeline_of users rates) t d = Raise e s1) /\
  (forall (R : Type) (HR : RateProvider R) (users : gmap string User.t)
          (rates : R) t d e s,
      ValidationFilter.process ValidationFilter.mk (Pipeline.start t d)
        = Raise e s ->
      Pipeline.run (pipeline_of users rates) t d = Raise e (Pipeline.start t d) /\
      Pipeline.calls (Pipeline.filters (pipeline_of users rates))
        (Pipeline.start t d) = 1).
Proof.
  assert (General : forall (pre post : list Filter) (f : Filter) s0 s1 e s2,
      Pipeline.loop pre s0 = Ok s1 ->
      f s1 = Raise e s2 ->
      Pipeline.loop (pre ++ f :: post) s0 = Raise e s2 /\
      Pipeline.calls (pre ++ f :: post) s0 = S (length pre)).
  { intros pre post f s0 s1 e s2 Hpre Hf.
    rewrite (loop_app _ _ _ _ Hpre), (calls_app _ _ _ _ Hpre).
    simpl. rewrite Hf. split; [reflexivity | lia]. }
  split; [exact General|]. split.
  - intros R HR users rates pre post f t d s1 e s2 Hsplit Hpre Hf.
    assert (s2 = s1) as ->.
    { eapply (stage_Raise_keeps_state users rates f); [|exact Hf].
      rewrite Hsplit. apply in_elt. }
    unfold Pipeline.run. rewrite Hsplit.
    exact (proj1 (General pre post f _ _ _ _ Hpre Hf)).
  - intros R HR users rates t d e s Hv.
    pose proof (ValidationFilter_Raise _ _ _ _ Hv) as ->.
    unfold Pipeline.run, pipeline_of. simpl.
    rewrite Hv. split; reflexivity.
Qed.

Lemma first_failure_short_circuits_witness :
  let s0 := Pipeline.start example_A Db.empty in
  let rates := FixedRateProvider.__init__ in
  let pre :=
    [ValidationFilter.process ValidationFilter.mk;
     AuthFilter.process (AuthFilter.mk load_mock_users);
     TransformFilter.process (TransformFilter.mk rates)] in
  let storage := StorageFilter.process (StorageFilter.mk "transactions.db") in
  let post := [FeeFilter.process (FeeFilter.mk rates)] in
  let e := StorageError "Transacción incompleta; verifique filtros previos." in
  let s1 :=
    with_tx (Transaction.set_subtotal_base (PyFloat.dec 65000 2))
      (with_tx (Transaction.set_btc_price_in_base (PyFloat.dec 650000 1))
         (with_context (insert "user" (VUser (User.mk "u001" "Alice" true)))
            s0)) in
  Pipeline.loop pre s0 = Ok s1 /\
  storage s1 = Raise e s1 /\
  Pipeline.loop (pre ++ storage :: post) s0 = Raise e s1 /\
  Pipeline.calls (pre ++ storage :: post) s0 = 4.
Proof.
  intros s0 rates pre storage post e s1.
  assert (Hpre : Pipeline.loop pre s0 = Ok s1) by (vm_compute; reflexivity).
  assert (Hf : storage s1 = Raise e s1) by (vm_compute; reflexivity).
  split; [exact Hpre|]. split; [exact Hf|].
  exact (proj1 first_failure_short_circuits pre post storage s0 s1 e s1 Hpre Hf).
Defined.

(** ** The validation gate *)

(** C3.  A transaction with an empty user identifier, an amount that is not
    above zero, or a base currency other than USD, EUR and GBP makes the run
    raise a validation failure, with the transaction, the context and the
    store exactly as they were at the start.  The checks are made in the
    order user identifier, amount, currency: the message is that of the
    first check that fails. *)
Theorem validation_gate {R : Type} `{RateProvider R}
    (users : gmap string User.t) (rates : R) (t : Transaction.t) (d : Db.t) :
  Transaction.user_id t = "" \/
  PyFloat.leb (Transaction.btc_amount t) PyFloat.zero = true \/
  ~ In (Transaction.base_currency t) currencies ->
  exists msg,
    Pipeline.run (pipeline_of users rates) t d
      = Raise (ValidationError msg) (Pipeline.start t d) /\
    (Transaction.user_id t = "" -> msg = "Falta user_id válido.") /\
    (Transaction.user_id t <> "" ->
     PyFloat.leb (Transaction.btc_amount t) PyFloat.zero = true ->
     msg = "btc_amount debe ser numérico y > 0.") /\
    (Transaction.user_id t <> "" ->
     PyFloat.leb (Transaction.btc_amount t) PyFloat.zero = false ->
     msg = "base_currency debe ser USD, EUR o GBP.").
Proof.
  intros Hbad.
  unfold Pipeline.run, pipeline_of; simpl.
  unfold ValidationFilter.process. rewrite get_transaction_start.
  destruct (String.eqb_spec (Transaction.user_id t) "") as [Hu|Hu].
  { eexists. split; [reflexivity|]. repeat split; congruence. }
  destruct (PyFloat.leb (Transaction.btc_amount t) PyFloat.zero) eqn:Ha.
  { eexists. split; [reflexivity|]. repeat split; congruence. }
  destruct (existsb _ currencies) eqn:Hc; simpl.
  { exfalso. destruct Hbad as [?|[?|Hn]]; try congruence.
    apply Hn. apply existsb_exists in Hc as (c & Hin & Hc).
    apply String.eqb_eq in Hc. subst c. exact Hin. }
  eexists. split; [reflexivity|]. repeat split; congruence.
Qed.

Lemma validation_gate_witness :
  let t :=
    Transaction.new (Transaction.class_statement 1000) 2000
      "u001" (PyFloat.of_Z (-1)) "JPY" in
  (Transaction.user_id t = "" \/
   PyFloat.leb (Transaction.btc_amount t) PyFloat.zero = true \/
   ~ In (Transaction.base_currency t) currencies) /\
  exists msg,
    Pipeline.run main_pipeline t Db.empty
      = Raise (ValidationError msg) (Pipeline.start t Db.empty) /\
    (Transaction.user_id t = "" -> msg = "Falta user_id válido.") /\
    (Transaction.user_id t <> "" ->
     PyFloat.leb (Transaction.btc_amount t) PyFloat.zero = true ->
     msg = "btc_amount debe ser numérico y > 0.") /\
    (Transaction.user_id t <> "" ->
     PyFloat.leb (Transaction.btc_amount t) PyFloat.zero = false ->
     msg = "base_currency debe ser USD, EUR o GBP.").
Proof.
  intros t.
  assert (Hbad : Transaction.user_id t = "" \/
                 PyFloat.leb (Transaction.btc_amount t) PyFloat.zero = true \/
                 ~ In (Transaction.base_currency t) currencies).
  { right. left. vm_compute. reflexivity. }
  split; [exact Hbad|].
  exact (validation_gate load_mock_users FixedRateProvider.__init__ t Db.empty Hbad).
Defined.

(** ** The authentication gate *)

(** C4.  For a transaction that passes validation: when its user identifier
    is not in the directory the run raises the authentication failure
    "Usuario <id> no existe." (the user does not exist); when the user found
    is not active it raises "Usuario <id> está inactivo." (the user is
    inactive).  In both cases the run ends in its start state: the
    transaction is as the caller built it, so price, subtotal and total are
    still unset if they were, and the store has received nothing.  When the
    authentication filter returns, it has put the user it found, an active
    one, under the key ["user"] and changed nothing else. *)
Theorem auth_gate {R : Type} `{RateProvider R}
    (users : gmap string User.t) (rates : R) (t : Transaction.t) (d : Db.t) :
  ValidationFilter.process ValidationFilter.mk (Pipeline.start t d)
    = Ok (Pipeline.start t d) ->
  (users !! Transaction.user_id t = None ->
   Pipeline.run (pipeline_of users rates) t d
     = Raise (AuthError ("Usuario " ++ Transaction.user_id t ++ " no existe."))
         (Pipeline.start t d)) /\
  (forall u,
     users !! Transaction.user_id t = Some u -> User.active u = false ->
     Pipeline.run (pipeline_of users rates) t d
       = Raise (AuthError ("Usuario " ++ Transaction.user_id t ++ " está inactivo."))
           (Pipeline.start t d)) /\
  (forall s s',
     AuthFilter.process (AuthFilter.mk users) s = Ok s' ->
     exists u,
       users !! Transaction.user_id (tx s) = Some u /\
       User.active u = true /\
       context s' = <["user" := VUser u]> (context s) /\
       tx s' = tx s /\ db s' = db s).
Proof.
  intros Hvalid. repeat split.
  - intros Hnone.
    unfold Pipeline.run, pipeline_of; simpl. rewrite Hvalid.
    unfold AuthFilter.process. rewrite get_transaction_start. simpl.
    rewrite Hnone. reflexivity.
  - intros u Hu Hinactive.
    unfold Pipeline.run, pipeline_of; simpl. rewrite Hvalid.
    unfold AuthFilter.process. rewrite get_transaction_start. simpl.
    rewrite Hu, Hinactive. reflexivity.
  - intros s s' Hok.
    apply AuthFilter_Ok in Hok as (u & _ & Hu & Ha & ->).
    exists u. auto.
Qed.

Lemma auth_gate_witness :
  ValidationFilter.process ValidationFilter.mk (Pipeline.start example_D Db.empty)
    = Ok (Pipeline.start example_D Db.empty) /\
  load_mock_users !! Transaction.user_id example_D = None /\
  Pipeline.run main_pipeline example_D Db.empty
    = Raise (AuthError "Usuario u999 no existe.")
        (Pipeline.start example_D Db.empty).
Proof.
  assert (Hvalid :
    ValidationFilter.process ValidationFilter.mk (Pipeline.start example_D Db.empty)
      = Ok (Pipeline.start example_D Db.empty)) by reflexivity.
  assert (Hnone : load_mock_users !! Transaction.user_id example_D = None)
    by reflexivity.
  split; [exact Hvalid|]. split; [exact Hnone|].
  exact (proj1 (auth_gate load_mock_users FixedRateProvider.__init__
                  example_D Db.empty Hvalid) Hnone).
Defined.

(** ** Ordering checks of the last two filters *)

(** C5.  On a context that holds the transaction: if any of price, subtotal,
    commission and total is unset, the storage filter raises the storage
    failure "Transacción incompleta; ..." (incomplete transaction) and the
    store is unchanged; if the subtotal is unset, the fee filter raises the
    transform failure "Falta subtotal_base; ..." (missing subtotal) and the
    transaction, its commission and total included, is unchanged. *)
Theorem incomplete_transaction_rejected (s : State) :
  context s !! "transaction" = Some VTransaction ->
  (forall (self : StorageFilter.t),
     Transaction.btc_price_in_base (tx s) = None \/
     Transaction.subtotal_base (tx s) = None \/
     Transaction.commission_base (tx s) = None \/
     Transaction.total_base (tx s) = None ->
     StorageFilter.process self s
       = Raise (StorageError "Transacción incompleta; verifique filtros previos.") s) /\
  (forall (R : Type) (HR : RateProvider R) (self : FeeFilter.t R),
     Transaction.subtotal_base (tx s) = None ->
     FeeFilter.process self s
       = Raise (TransformError "Falta subtotal_base; ejecute TransformFilter antes.") s).
Proof.
  intros Hctx. split.
  - intros self Hunset.
    unfold StorageFilter.process. rewrite (get_transaction_present _ Hctx).
    replace (existsb _ _) with true; [reflexivity|].
    symmetry. apply existsb_exists.
    exists None. split; [|reflexivity].
    destruct Hunset as [E|[E|[E|E]]]; rewrite E; simpl; auto.
  - intros R HR self Hsub.
    unfold FeeFilter.process. rewrite (get_transaction_present _ Hctx).
    rewrite Hsub. reflexivity.
Qed.

Lemma incomplete_transaction_rejected_witness :
  let s := Pipeline.start example_A Db.empty in
  context s !! "transaction" = Some VTransaction /\
  StorageFilter.process (StorageFilter.mk "transactions.db") s
    = Raise (StorageError "Transacción incompleta; verifique filtros previos.") s /\
  FeeFilter.process (FeeFilter.mk FixedRateProvider.__init__) s
    = Raise (TransformError "Falta subtotal_base; ejecute TransformFilter antes.") s.
Proof.
  intros s.
  assert (Hctx : context s !! "transaction" = Some VTransaction) by reflexivity.
  destruct (incomplete_transaction_rejected s Hctx) as [Hstorage Hfee].
  split; [exact Hctx|]. split.
  - apply Hstorage. left. reflexivity.
  - apply Hfee. reflexivity.
Defined.

(** ** The two worked scenarios *)

(** C6.  With the rates of [FixedRateProvider] (BTC at 65000.0 USD and
    61000.0 EUR; one USD is 1.0 USD and 0.93 EUR) and the default commission
    of 5.00 USD, on the mock directory and an empty store: 0.01 BTC in USD
    for the active user "u001" gives subtotal 650.00, commission 5.00, total
    655.00 and the storage result "ok"; 0.05 BTC in EUR for the active user
    "u002" gives subtotal 3050.00, commission 4.65 and total 3054.65. *)
Theorem scenarios_A_and_B :
  let rates := FixedRateProvider.__init__ in
  (get_btc_price rates "USD" = inr (PyFloat.dec 650000 1) /\
   get_btc_price rates "EUR" = inr (PyFloat.dec 610000 1) /\
   usd_to rates "USD" = inr (PyFloat.dec 10 1) /\
   usd_to rates "EUR" = inr (PyFloat.dec 93 2)) /\
  (forall clock now,
     let t := Transaction.new (Transaction.class_statement clock) now
                "u001" (PyFloat.dec 1 2) "USD" in
     Transaction.commission_usd t = PyFloat.dec 500 2 /\
     exists s,
       Pipeline.run main_pipeline t Db.empty = Ok s /\
       Transaction.subtotal_base (tx s) = Some (PyFloat.dec 65000 2) /\
       Transaction.commission_base (tx s) = Some (PyFloat.dec 500 2) /\
       Transaction.total_base (tx s) = Some (PyFloat.dec 65500 2) /\
       context s !! "storage_result" = Some (VStr "ok")) /\
  (forall clock now,
     let t := Transaction.new (Transaction.class_statement clock) now
                "u002" (PyFloat.dec 5 2) "EUR" in
     Transaction.commission_usd t = PyFloat.dec 500 2 /\
     exists s,
       Pipeline.run main_pipeline t Db.empty = Ok s /\
       Transaction.subtotal_base (tx s) = Some (PyFloat.dec 305000 2) /\
       Transaction.commission_base (tx s) = Some (PyFloat.dec 465 2) /\
       Transaction.total_base (tx s) = Some (PyFloat.dec 305465 2)).
Proof.
  intros rates. split; [|split].
  - repeat split; vm_compute; reflexivity.
  - intros clock now t. split; [vm_compute; reflexivity|].
    eexists. split; [vm_compute; reflexivity|].
    repeat split; vm_compute; reflexivity.
  - intros clock now t. split; [vm_compute; reflexivity|].
    eexists. split; [vm_compute; reflexivity|].
    repeat split; vm_compute; reflexivity.
Qed.

(** ** The creation timestamp *)

(** Whenever a record is constructed, its [ts_epoch] is the clock reading of
    the class statement; the moment of the construction plays no part. *)
Lemma ts_epoch_default (clock now : Z) (u c : string) (a : float) :
  Transaction.ts_epoch
    (Transaction.new (Transaction.class_statement clock) now u a c) = clock.
Proof. reflexivity. Qed.

(** C7.  The code at a concrete input: the class statement runs at second
    1000, one record is built at second 2000 and another at second 3000.
    Both carry the timestamp 1000: neither reflects its own construction
    moment, and the two do not differ. *)
Theorem ts_epoch_stale :
  let cls := Transaction.class_statement 1000 in
  let t1 := Transaction.new cls 2000 "u001" (PyFloat.dec 1 2) "USD" in
  let t2 := Transaction.new cls 3000 "u002" (PyFloat.dec 5 2) "EUR" in
  Transaction.ts_epoch t1 = 1000%Z /\
  Transaction.ts_epoch t2 = 1000%Z /\
  Transaction.ts_epoch t1 = Transaction.ts_epoch t2.
Proof.
  intros cls t1 t2. unfold t1, t2, cls.
  rewrite !ts_epoch_default. auto.
Qed.

(** ** The kind of failure each filter can raise *)

Lemma ValidationFilter_Raise_kind self s e s' :
  context s !! "transaction" = Some VTransaction ->
  ValidationFilter.process self s = Raise e s' ->
  exists msg, e = ValidationError msg.
Proof.
  intros Hctx. unfold ValidationFilter.process.
  rewrite (get_transaction_present _ Hctx).
  repeat (match goal with |- context [if ?b then _ else _] => destruct b end);
    intros [= <- _]; eauto.
Qed.

Lemma AuthFilter_Raise_kind self s e s' :
  context s !! "transaction" = Some VTransaction ->
  AuthFilter.process self s = Raise e s' ->
  exists msg, e = AuthError msg.
Proof.
  intros Hctx. unfold AuthFilter.process.
  rewrite (get_transaction_present _ Hctx).
  destruct (AuthFilter.users self !! _) as [u|].
  - destruct (negb (User.active u)); intros [= <- _]; eauto.
  - intros [= <- _]; eauto.
Qed.

Lemma StorageFilter_Raise_kind self s e s' :
  context s !! "transaction" = Some VTransaction ->
  StorageFilter.process self s = Raise e s' ->
  exists msg, e = StorageError msg.
Proof.
  intros Hctx. unfold StorageFilter.process.
  rewrite (get_transaction_present _ Hctx).
  destruct (existsb _ _).
  - intros [= <- _]; eauto.
  - destruct (Db.insert _ _); intros [= <- _]; eauto.
Qed.

Section FailureKinds.

Context {R : Type} `{RateProvider R}.
Variable users : gmap string User.t.
Variable rates : R.

Lemma TransformFilter_Raise_kind (self : TransformFilter.t R) s e s' :
  context s !! "transaction" = Some VTransaction ->
  TransformFilter.process self s = Raise e s' ->
  get_btc_price (TransformFilter.rates self)
    (Transaction.base_currency (tx s)) = inl e.
Proof.
  intros Hctx. unfold TransformFilter.process.
  rewrite (get_transaction_present _ Hctx).
  destruct (get_btc_price _ _); intros [= <- _]; reflexivity.
Qed.

Lemma FeeFilter_Raise_kind (self : FeeFilter.t R) s e s' :
  context s !! "transaction" = Some VTransaction ->
  FeeFilter.process self s = Raise e s' ->
  Transaction.subtotal_base (tx s) = None \/
  usd_to (FeeFilter.rates self) (Transaction.base_currency (tx s)) = inl e.
Proof.
  intros Hctx. unfold FeeFilter.process.
  rewrite (get_transaction_present _ Hctx).
  destruct (Transaction.subtotal_base _); [|auto].
  destruct (usd_to _ _); intros [= <- _]; auto.
Qed.

(** A failing run of the five filters fails in one of four ways. *)
Lemma run_Raise_inv t d e s :
  Pipeline.run (pipeline_of users rates) t d = Raise e s ->
  (exists msg, e = ValidationError msg) \/
  (exists msg, e = AuthError msg) \/
  get_btc_price rates (Transaction.base_currency t) = inl e \/
  usd_to rates (Transaction.base_currency t) = inl e \/
  (exists msg, e = StorageError msg).
Proof.
  unfold Pipeline.run, pipeline_of; simpl.
  destruct (ValidationFilter.process _ _) as [s1|e1 s1] eqn:E1.
  2:{ intros [= <- _]. left.
      eapply ValidationFilter_Raise_kind; [|exact E1]. reflexivity. }
  apply ValidationFilter_Ok in E1 as (-> & _).
  destruct (AuthFilter.process _ _) as [s2|e2 s2] eqn:E2.
  2:{ intros [= <- _]. right; left.
      eapply AuthFilter_Raise_kind; [|exact E2]. reflexivity. }
  apply AuthFilter_Ok in E2 as (u & _ & _ & _ & ->).
  destruct (TransformFilter.process _ _) as [s3|e3 s3] eqn:E3.
  2:{ intros [= <- _]. right; right; left.
      apply TransformFilter_Raise_kind in E3; [exact E3|reflexivity]. }
  apply TransformFilter_Ok in E3 as (price & _ & _ & ->).
  destruct (FeeFilter.process _ _) as [s4|e4 s4] eqn:E4.
  2:{ intros [= <- _]. right; right; right; left.
      apply FeeFilter_Raise_kind in E4 as [E4|E4];
        [discriminate E4 | exact E4 | reflexivity]. }
  apply FeeFilter_Ok in E4 as (sub & fx & _ & _ & _ & ->).
  destruct (StorageFilter.process _ _) as [s5|e5 s5] eqn:E5; [discriminate|].
  intros [= <- _]. right; right; right; right.
  eapply StorageFilter_Raise_kind; [|exact E5]. reflexivity.
Qed.

Lemma TransformFilter_again (self : TransformFilter.t R) s s1 :
  TransformFilter.process self s = Ok s1 ->
  TransformFilter.process self s1 = Ok s1.
Proof.
  intros Hok.
  apply TransformFilter_Ok in Hok as (price & Hctx & Hp & ->).
  unfold TransformFilter.process.
  rewrite !get_transaction_with_tx, (get_transaction_present _ Hctx).
  destruct s as [[] ? ?]; simpl in *. rewrite Hp. reflexivity.
Qed.

End FailureKinds.

(** ** The transaction key *)

(** C8.  Each of the five filters, given a context that holds the
    transaction under ["transaction"], returns a context that still holds it
    under that key.  So the context a successful run returns maps
    ["transaction"] to the transaction the caller passed: the same object,
    with the fields the caller gave it unchanged. *)
Theorem transaction_key_kept {R : Type} `{RateProvider R}
    (users : gmap string User.t) (rates : R) :
  (forall (f : Filter) s s',
     In f (Pipeline.filters (pipeline_of users rates)) ->
     context s !! "transaction" = Some VTransaction ->
     f s = Ok s' ->
     context s' !! "transaction" = Some VTransaction) /\
  (forall t d s',
     Pipeline.run (pipeline_of users rates) t d = Ok s' ->
     context s' !! "transaction" = Some VTransaction /\
     Transaction.user_id (tx s') = Transaction.user_id t /\
     Transaction.btc_amount (tx s') = Transaction.btc_amount t /\
     Transaction.base_currency (tx s') = Transaction.base_currency t /\
     Transaction.commission_usd (tx s') = Transaction.commission_usd t /\
     Transaction.ts_epoch (tx s') = Transaction.ts_epoch t).
Proof.
  split.
  - intros f s s' Hin Hctx Hok. simpl in Hin.
    destruct Hin as [<-|[<-|[<-|[<-|[<-|[]]]]]].
    + apply ValidationFilter_Ok in Hok as (-> & _). exact Hctx.
    + apply AuthFilter_Ok in Hok as (u & _ & _ & _ & ->). simpl.
      rewrite lookup_insert_ne; [exact Hctx | discriminate].
    + apply TransformFilter_Ok in Hok as (price & _ & _ & ->). exact Hctx.
    + apply FeeFilter_Ok in Hok as (sub & fx & _ & _ & _ & ->). exact Hctx.
    + apply StorageFilter_Ok in Hok as (d & _ & _ & _ & _ & _ & _ & ->). simpl.
      rewrite lookup_insert_ne; [exact Hctx | discriminate].
  - intros t d s' Hrun.
    apply run_Ok_inv in Hrun as (u & price & fx & d' & _ & _ & _ & _ & _ & ->).
    simpl. repeat split.
Qed.

Lemma transaction_key_kept_witness :
  exists s',
    Pipeline.run main_pipeline example_B Db.empty = Ok s' /\
    context s' !! "transaction" = Some VTransaction /\
    Transaction.user_id (tx s') = "u002".
Proof.
  eexists. split; [vm_compute; reflexivity|].
  assert (Hrun : Pipeline.run main_pipeline example_B Db.empty = Ok _)
    by (vm_compute; reflexivity).
  destruct (proj2 (transaction_key_kept load_mock_users FixedRateProvider.__init__)
              example_B Db.empty _ Hrun) as (Hkey & Hid & _).
  split; [exact Hkey | exact Hid].
Defined.

(** ** Currencies *)

Lemma FixedRateProvider_supported c :
  In c currencies ->
  (exists price, get_btc_price FixedRateProvider.__init__ c = inr price) /\
  (exists fx, usd_to FixedRateProvider.__init__ c = inr fx).
Proof.
  simpl. intros [<-|[<-|[<-|[]]]]; split; eexists; vm_compute; reflexivity.
Qed.

(** C9.  A transaction that passes validation has a base currency for which
    both lookups of [FixedRateProvider] return a rate; the conversion filter
    then returns on every context that holds the transaction, the fee filter
    raises on such a context only for an unset subtotal, and a run of the
    pipeline on that transaction never raises a transform failure. *)
Theorem validated_currency_is_supported (t : Transaction.t) (d : Db.t) :
  ValidationFilter.process ValidationFilter.mk (Pipeline.start t d)
    = Ok (Pipeline.start t d) ->
  let rates := FixedRateProvider.__init__ in
  (exists price, get_btc_price rates (Transaction.base_currency t) = inr price) /\
  (exists fx, usd_to rates (Transaction.base_currency t) = inr fx) /\
  (forall s,
     tx s = t -> context s !! "transaction" = Some VTransaction ->
     exists s', TransformFilter.process (TransformFilter.mk rates) s = Ok s') /\
  (forall s e s',
     tx s = t -> context s !! "transaction" = Some VTransaction ->
     FeeFilter.process (FeeFilter.mk rates) s = Raise e s' ->
     Transaction.subtotal_base t = None /\
     e = TransformError "Falta subtotal_base; ejecute TransformFilter antes.") /\
  (forall users d' e s msg,
     Pipeline.run (pipeline_of users rates) t d' = Raise e s ->
     e <> TransformError msg).
Proof.
  intros Hvalid rates. subst rates.
  apply ValidationFilter_Ok in Hvalid as (_ & _ & _ & _ & Hcur). simpl in Hcur.
  destruct (FixedRateProvider_supported _ Hcur) as [[price Hp] [fx Hfx]].
  split; [eauto|]. split; [eauto|]. split; [|split].
  - intros s <- Hctx. unfold TransformFilter.process.
    rewrite (get_transaction_present _ Hctx).
    cbn [TransformFilter.rates]. rewrite Hp. eauto.
  - intros s e s' <- Hctx. unfold FeeFilter.process.
    rewrite (get_transaction_present _ Hctx).
    destruct (Transaction.subtotal_base (tx s)); [|intros [= <- _]; auto].
    cbn [FeeFilter.rates]. rewrite Hfx. discriminate.
  - intros users d' e s msg Hrun ->.
    apply run_Raise_inv in Hrun
      as [[m Hm]|[[m Hm]|[Hm|[Hm|[m Hm]]]]]; try discriminate.
    + rewrite Hp in Hm. discriminate.
    + rewrite Hfx in Hm. discriminate.
Qed.

Lemma validated_currency_is_supported_witness :
  ValidationFilter.process ValidationFilter.mk (Pipeline.start example_C Db.empty)
    = Ok (Pipeline.start example_C Db.empty) /\
  (exists price,
     get_btc_price FixedRateProvider.__init__
       (Transaction.base_currency example_C) = inr price) /\
  (forall e s msg,
     Pipeline.run main_pipeline example_C Db.empty = Raise e s ->
     e <> TransformError msg).
Proof.
  assert (Hvalid :
    ValidationFilter.process ValidationFilter.mk (Pipeline.start example_C Db.empty)
      = Ok (Pipeline.start example_C Db.empty)) by reflexivity.
  destruct (validated_currency_is_supported example_C Db.empty Hvalid)
    as (Hprice & _ & _ & _ & Hrun).
  split; [exact Hvalid|]. split; [exact Hprice|].
  intros e s msg. apply Hrun.
Defined.

(** ** Conversion twice *)

(** C10.  On a context that holds a transaction whose base currency is USD,
    EUR or GBP, the conversion filter returns, and applying it to the state
    it returned gives that same state again: the same context, the same
    price and subtotal, every other field and the store untouched. *)
Theorem transform_idempotent (s : State) :
  context s !! "transaction" = Some VTransaction ->
  In (Transaction.base_currency (tx s)) currencies ->
  let transform :=
    TransformFilter.process (TransformFilter.mk FixedRateProvider.__init__) in
  exists s1, transform s = Ok s1 /\ transform s1 = Ok s1.
Proof.
  intros Hctx Hcur transform.
  destruct (FixedRateProvider_supported _ Hcur) as [[price Hp] _].
  assert (exists s1, transform s = Ok s1) as [s1 H1].
  { unfold transform, TransformFilter.process.
    rewrite (get_transaction_present _ Hctx).
    cbn [TransformFilter.rates]. rewrite Hp. eauto. }
  exists s1. split; [exact H1|].
  exact (TransformFilter_again _ _ _ H1).
Qed.

Lemma transform_idempotent_witness :
  let s := Pipeline.start example_B Db.empty in
  let transform :=
    TransformFilter.process (TransformFilter.mk FixedRateProvider.__init__) in
  context s !! "transaction" = Some VTransaction /\
  In (Transaction.base_currency (tx s)) currencies /\
  exists s1, transform s = Ok s1 /\ transform s1 = Ok s1.
Proof.
  intros s transform.
  assert (Hctx : context s !! "transaction" = Some VTransaction) by reflexivity.
  assert (Hcur : In (Transaction.base_currency (tx s)) currencies)
    by (simpl; auto).
  split; [exact Hctx|]. split; [exact Hcur|].
  exact (transform_idempotent s Hctx Hcur).
Defined.

(** * Further properties of the code *)

(** ** The rate tables *)

Lemma FixedRateProvider_unsupported c :
  ~ In c currencies ->
  get_btc_price FixedRateProvider.__init__ c
    = inl (TransformError ("Moneda no soportada para precio BTC: " ++ c)) /\
  usd_to FixedRateProvider.__init__ c
    = inl (TransformError ("Moneda no soportada para FX: " ++ c)).
Proof.
  intros Hout.
  assert (c <> "USD" /\ c <> "EUR" /\ c <> "GBP") as (H1 & H2 & H3).
  { repeat split; intros ->; apply Hout; simpl; auto. }
  split; cbn [get_btc_price usd_to FixedRateProvider_rates];
    unfold FixedRateProvider.get_btc_price, FixedRateProvider.usd_to,
      FixedRateProvider.__init__;
    cbn [FixedRateProvider._btc FixedRateProvider._fx_usd];
    rewrite !lookup_insert_ne by congruence; rewrite lookup_empty; reflexivity.
Qed.

(** X1.  [FixedRateProvider] knows USD, EUR and GBP and nothing else: for
    these three both lookups return a rate, and for every other string both
    raise a transform failure whose message ends with the currency asked
    for. *)
Theorem FixedRateProvider_supports_exactly (c : string) :
  (In c currencies ->
   (exists price, get_btc_price FixedRateProvider.__init__ c = inr price) /\
   (exists fx, usd_to FixedRateProvider.__init__ c = inr fx)) /\
  (~ In c currencies ->
   get_btc_price FixedRateProvider.__init__ c
     = inl (TransformError ("Moneda no soportada para precio BTC: " ++ c)) /\
   usd_to FixedRateProvider.__init__ c
     = inl (TransformError ("Moneda no soportada para FX: " ++ c))).
Proof.
  split.
  - apply FixedRateProvider_supported.
  - apply FixedRateProvider_unsupported.
Qed.

Lemma not_in_currencies_JPY : ~ In "JPY" currencies.
Proof. simpl. intros [E|[E|[E|[]]]]; discriminate E. Qed.

Lemma FixedRateProvider_supports_exactly_witness :
  In "GBP" currencies /\
  (exists price, get_btc_price FixedRateProvider.__init__ "GBP" = inr price) /\
  ~ In "JPY" currencies /\
  get_btc_price FixedRateProvider.__init__ "JPY"
    = inl (TransformError "Moneda no soportada para precio BTC: JPY").
Proof.
  assert (Hin : In "GBP" currencies) by (simpl; auto).
  split; [exact Hin|].
  split; [exact (proj1 (proj1 (FixedRateProvider_supports_exactly "GBP") Hin))|].
  split; [exact not_in_currencies_JPY|].
  exact (proj1 (proj2 (FixedRateProvider_supports_exactly "JPY")
                  not_in_currencies_JPY)).
Defined.

(** X2.  When the transaction's currency is not in the tables, the
    conversion filter raises the provider's transform failure about the BTC
    price, and the fee filter, once the subtotal is set, raises the one about
    the exchange rate; neither has written anything by then. *)
Theorem unsupported_currency_surfaces (s : State) :
  context s !! "transaction" = Some VTransaction ->
  ~ In (Transaction.base_currency (tx s)) currencies ->
  TransformFilter.process (TransformFilter.mk FixedRateProvider.__init__) s
    = Raise (TransformError ("Moneda no soportada para precio BTC: "
                               ++ Transaction.base_currency (tx s))) s /\
  (forall subtotal,
     Transaction.subtotal_base (tx s) = Some subtotal ->
     FeeFilter.process (FeeFilter.mk FixedRateProvider.__init__) s
       = Raise (TransformError ("Moneda no soportada para FX: "
                                  ++ Transaction.base_currency (tx s))) s).
Proof.
  intros Hctx Hout.
  destruct (FixedRateProvider_unsupported _ Hout) as [Hp Hfx].
  split.
  - unfold TransformFilter.process. rewrite (get_transaction_present _ Hctx).
    cbn [TransformFilter.rates]. rewrite Hp. reflexivity.
  - intros subtotal Hsub.
    unfold FeeFilter.process. rewrite (get_transaction_present _ Hctx), Hsub.
    cbn [FeeFilter.rates]. rewrite Hfx. reflexivity.
Qed.

Lemma unsupported_currency_surfaces_witness :
  let t := Transaction.new (Transaction.class_statement 1000) 2000
             "u001" (PyFloat.dec 1 2) "JPY" in
  let s := Pipeline.start t Db.empty in
  context s !! "transaction" = Some VTransaction /\
  ~ In (Transaction.base_currency (tx s)) currencies /\
  TransformFilter.process (TransformFilter.mk FixedRateProvider.__init__) s
    = Raise (TransformError "Moneda no soportada para precio BTC: JPY") s.
Proof.
  intros t s.
  assert (Hctx : context s !! "transaction" = Some VTransaction) by reflexivity.
  split; [exact Hctx|]. split; [exact not_in_currencies_JPY|].
  exact (proj1 (unsupported_currency_surfaces s Hctx not_in_currencies_JPY)).
Defined.

(** ** A context without the transaction *)

(** X3.  Each of the five filters, given a context that has no
    ["transaction"] entry, raises [KeyError] for that key and leaves
    everything as it was.  That exception is not a [PipelineError]. *)
Theorem missing_transaction_key {R : Type} `{RateProvider R}
    (users : gmap string User.t) (rates : R) (f : Filter) (s : State) :
  In f (Pipeline.filters (pipeline_of users rates)) ->
  context s !! "transaction" = None ->
  f s = Raise (KeyError "transaction") s /\
  except_PipelineError (KeyError "transaction") = None.
Proof.
  intros Hin Hnone. split; [|reflexivity].
  assert (Hget : get_transaction s = inl (KeyError "transaction")).
  { unfold get_transaction. rewrite Hnone. reflexivity. }
  simpl in Hin. destruct Hin as [<-|[<-|[<-|[<-|[<-|[]]]]]].
  - unfold ValidationFilter.process. rewrite Hget. reflexivity.
  - unfold AuthFilter.process. rewrite Hget. reflexivity.
  - unfold TransformFilter.process. rewrite Hget. reflexivity.
  - unfold FeeFilter.process. rewrite Hget. reflexivity.
  - unfold StorageFilter.process. rewrite Hget. reflexivity.
Qed.

Lemma missing_transaction_key_witness :
  let s := {| tx := example_A; context := ∅; db := Db.empty |} in
  let f := FeeFilter.process (FeeFilter.mk FixedRateProvider.__init__) in
  In f (Pipeline.filters main_pipeline) /\
  context s !! "transaction" = None /\
  f s = Raise (KeyError "transaction") s.
Proof.
  intros s f.
  assert (Hin : In f (Pipeline.filters main_pipeline))
    by (simpl; right; right; right; left; reflexivity).
  assert (Hnone : context s !! "transaction" = None) by reflexivity.
  split; [exact Hin|]. split; [exact Hnone|].
  exact (proj1 (missing_transaction_key load_mock_users
                  FixedRateProvider.__init__ f s Hin Hnone)).
Defined.

(** ** Persistence *)

Lemma Db_insert_inr t d d' :
  Db.insert t d = inr d' ->
  Db.fault d t = None /\
  Transaction.btc_amount t <> S754_nan /\
  d' = {| Db.rows := Db.rows d ++ [Db.row_of (Db.seq d + 1) t];
          Db.seq := (Db.seq d + 1)%Z;
          Db.fault := Db.fault d |}.
Proof.
  unfold Db.insert.
  destruct (Db.fault d t); [discriminate|].
  destruct (Transaction.btc_amount t) eqn:Ha; simpl; rewrite Ha; simpl;
    try discriminate; intros [= <-]; repeat split; discriminate.
Qed.

Lemma Db_insert_accepts t d :
  Db.fault d t = None ->
  Transaction.btc_amount t <> S754_nan ->
  Db.insert t d =
  inr {| Db.rows := Db.rows d ++ [Db.row_of (Db.seq d + 1) t];
         Db.seq := (Db.seq d + 1)%Z;
         Db.fault := Db.fault d |}.
Proof.
  intros Hfault Hnan. unfold Db.insert. rewrite Hfault.
  destruct (Transaction.btc_amount t) eqn:Ha; simpl; rewrite Ha; simpl;
    try reflexivity. contradiction.
Qed.

Lemma StorageFilter_complete self s p sub c tot :
  context s !! "transaction" = Some VTransaction ->
  Transaction.btc_price_in_base (tx s) = Some p ->
  Transaction.subtotal_base (tx s) = Some sub ->
  Transaction.commission_base (tx s) = Some c ->
  Transaction.total_base (tx s) = Some tot ->
  StorageFilter.process self s =
  match Db.insert (tx s) (db s) with
  | inl e => Raise (StorageError ("Error al guardar en SQLite: " ++ e)) s
  | inr d => Ok (with_context (insert "storage_result" (VStr "ok")) (with_db d s))
  end.
Proof.
  intros Hctx Hp Hsub Hc Htot.
  unfold StorageFilter.process.
  rewrite (get_transaction_present _ Hctx), Hp, Hsub, Hc, Htot. reflexivity.
Qed.

(** X4.  When the storage filter returns, it has appended exactly one row
    after the rows already there: the row's identifier is the counter plus
    one, its text and integer columns are the transaction's [user_id],
    [base_currency] and [ts_epoch], and each REAL column holds the
    transaction's field as SQLite keeps it (NULL for NaN, [0.0] for a
    negative zero).  The amount stored is never NULL, the counter has
    advanced by one, the transaction is untouched and the context is marked
    with the storage result "ok". *)
Theorem storage_appends_one_row (self : StorageFilter.t) (s s' : State) :
  StorageFilter.process self s = Ok s' ->
  exists r,
    Db.rows (db s') = (Db.rows (db s) ++ [r])%list /\
    Db.id r = (Db.seq (db s) + 1)%Z /\
    Db.user_id r = Transaction.user_id (tx s) /\
    Db.base_currency r = Transaction.base_currency (tx s) /\
    Db.ts_epoch r = Transaction.ts_epoch (tx s) /\
    Db.btc_amount r = Db.real (Transaction.btc_amount (tx s)) /\
    is_Some (Db.btc_amount r) /\
    Db.btc_price_in_base r = Db.real_opt (Transaction.btc_price_in_base (tx s)) /\
    Db.subtotal_base r = Db.real_opt (Transaction.subtotal_base (tx s)) /\
    Db.commission_usd r = Db.real (Transaction.commission_usd (tx s)) /\
    Db.commission_base r = Db.real_opt (Transaction.commission_base (tx s)) /\
    Db.total_base r = Db.real_opt (Transaction.total_base (tx s)) /\
    Db.seq (db s') = (Db.seq (db s) + 1)%Z /\
    tx s' = tx s /\
    context s' = <["storage_result" := VStr "ok"]> (context s).
Proof.
  intros Hok.
  apply StorageFilter_Ok in Hok as (d & _ & _ & _ & _ & _ & Hins & ->).
  apply Db_insert_inr in Hins as (_ & Hnan & ->).
  eexists. simpl. split; [reflexivity|]. simpl.
  repeat split.
  destruct (Transaction.btc_amount (tx s)); simpl; eauto. contradiction.
Qed.

Lemma storage_appends_one_row_witness :
  let storage := StorageFilter.process (StorageFilter.mk "transactions.db") in
  let s := Pipeline.start example_A_complete Db.empty in
  storage s = Ok (state_of (storage s)) /\
  exists r,
    Db.rows (db (state_of (storage s))) = [r] /\
    Db.id r = 1%Z /\
    Db.total_base r = Some (PyFloat.dec 65500 2).
Proof.
  intros storage s.
  assert (Hok : storage s = Ok (state_of (storage s))) by reflexivity.
  split; [exact Hok|].
  destruct (storage_appends_one_row (StorageFilter.mk "transactions.db")
              s _ Hok)
    as (r & Hrows & Hid & _ & _ & _ & _ & _ & _ & _ & _ & _ & Htot & _).
  exists r. split; [exact Hrows|]. split; [exact Hid|].
  rewrite Htot. reflexivity.
Defined.

(** X5.  The storage filter does not deduplicate: when it has stored a
    transaction and then returns again on the state it left, the table ends
    with two rows for that transaction, alike in every column but the
    identifier, numbered consecutively after the counter. *)
Theorem storage_twice_appends_twice (self : StorageFilter.t) (s s1 s2 : State) :
  StorageFilter.process self s = Ok s1 ->
  StorageFilter.process self s1 = Ok s2 ->
  Db.rows (db s2) =
    (Db.rows (db s) ++
     [Db.row_of (Db.seq (db s) + 1) (tx s);
      Db.row_of (Db.seq (db s) + 2) (tx s)])%list /\
  length (Db.rows (db s2)) = S (S (length (Db.rows (db s)))).
Proof.
  intros Hok1 Hok2.
  apply StorageFilter_Ok in Hok1 as (d1 & _ & _ & _ & _ & _ & Hins1 & ->).
  apply Db_insert_inr in Hins1 as (_ & _ & ->).
  apply StorageFilter_Ok in Hok2 as (d2 & _ & _ & _ & _ & _ & Hins2 & ->).
  simpl in Hins2.
  apply Db_insert_inr in Hins2 as (_ & _ & ->). simpl.
  rewrite <- app_assoc. simpl.
  replace (Db.seq (db s) + 1 + 1)%Z with (Db.seq (db s) + 2)%Z by lia.
  split; [reflexivity|].
  rewrite length_app. simpl. lia.
Qed.

Lemma storage_twice_appends_twice_witness :
  let storage := StorageFilter.process (StorageFilter.mk "transactions.db") in
  let s := Pipeline.start example_A_complete Db.empty in
  let s1 := state_of (storage s) in
  let s2 := state_of (storage s1) in
  storage s = Ok s1 /\
  storage s1 = Ok s2 /\
  map Db.id (Db.rows (db s2)) = [1%Z; 2%Z].
Proof.
  intros storage s s1 s2.
  assert (Hok1 : storage s = Ok s1) by reflexivity.
  assert (Hok2 : storage s1 = Ok s2) by reflexivity.
  split; [exact Hok1|]. split; [exact Hok2|].
  rewrite (proj1 (storage_twice_appends_twice
                    (StorageFilter.mk "transactions.db") s s1 s2 Hok1 Hok2)).
  reflexivity.
Defined.

(** X6.  When the engine refuses the INSERT of a complete transaction, the
    storage filter raises a storage failure whose message ends with the
    engine's own error text; no row is added and the context is not marked. *)
Theorem storage_write_error (self : StorageFilter.t) (s : State)
    (p sub c tot : float) (cause : string) :
  context s !! "transaction" = Some VTransaction ->
  Transaction.btc_price_in_base (tx s) = Some p ->
  Transaction.subtotal_base (tx s) = Some sub ->
  Transaction.commission_base (tx s) = Some c ->
  Transaction.total_base (tx s) = Some tot ->
  Db.fault (db s) (tx s) = Some cause ->
  StorageFilter.process self s
    = Raise (StorageError ("Error al guardar en SQLite: " ++ cause)) s.
Proof.
  intros Hctx Hp Hsub Hc Htot Hfault.
  rewrite (StorageFilter_complete self s p sub c tot) by assumption.
  unfold Db.insert. rewrite Hfault. reflexivity.
Qed.

Lemma storage_write_error_witness :
  let full := {| Db.rows := []; Db.seq := 0;
                 Db.fault := fun _ => Some "database or disk is full" |} in
  let s := Pipeline.start example_A_complete full in
  StorageFilter.process (StorageFilter.mk "transactions.db") s
    = Raise (StorageError "Error al guardar en SQLite: database or disk is full") s.
Proof.
  intros full s.
  exact (storage_write_error (StorageFilter.mk "transactions.db") s
           _ _ _ _ "database or disk is full"
           eq_refl eq_refl eq_refl eq_refl eq_refl eq_refl).
Defined.

(** ** Whole runs *)

Lemma ValidationFilter_accepts self s :
  context s !! "transaction" = Some VTransaction ->
  Transaction.user_id (tx s) <> "" ->
  PyFloat.leb (Transaction.btc_amount (tx s)) PyFloat.zero = false ->
  In (Transaction.base_currency (tx s)) currencies ->
  ValidationFilter.process self s = Ok s.
Proof.
  intros Hctx Hu Ha Hc.
  unfold ValidationFilter.process. rewrite (get_transaction_present _ Hctx).
  apply String.eqb_neq in Hu. rewrite Hu, Ha.
  replace (existsb _ currencies) with true; [reflexivity|].
  symmetry. apply existsb_exists.
  exists (Transaction.base_currency (tx s)). split; [exact Hc|].
  apply String.eqb_refl.
Qed.

Section Runs.

Context {R : Type} `{RateProvider R}.
Variable users : gmap string User.t.
Variable rates : R.

Lemma run_Ok_valid t d s' :
  Pipeline.run (pipeline_of users rates) t d = Ok s' ->
  Transaction.user_id t <> "" /\
  PyFloat.leb (Transaction.btc_amount t) PyFloat.zero = false /\
  In (Transaction.base_currency t) currencies.
Proof.
  unfold Pipeline.run, pipeline_of; simpl.
  destruct (ValidationFilter.process _ _) as [s1|] eqn:E1; [|discriminate].
  apply ValidationFilter_Ok in E1 as (_ & _ & Hu & Ha & Hc). auto.
Qed.

Lemma run_Ok_intro t d u price fx :
  Transaction.user_id t <> "" ->
  PyFloat.leb (Transaction.btc_amount t) PyFloat.zero = false ->
  In (Transaction.base_currency t) currencies ->
  users !! Transaction.user_id t = Some u ->
  User.active u = true ->
  get_btc_price rates (Transaction.base_currency t) = inr price ->
  usd_to rates (Transaction.base_currency t) = inr fx ->
  let subtotal := PyFloat.round (PyFloat.mul price (Transaction.btc_amount t)) 2 in
  let commission := PyFloat.round (PyFloat.mul (Transaction.commission_usd t) fx) 2 in
  let total := PyFloat.round (PyFloat.add subtotal commission) 2 in
  let t' :=
    Transaction.mk (Transaction.user_id t) (Transaction.btc_amount t)
      (Transaction.base_currency t) (Some price) (Some subtotal)
      (Transaction.commission_usd t) (Some commission) (Some total)
      (Transaction.ts_epoch t) in
  Db.fault d t' = None ->
  Transaction.btc_amount t <> S754_nan ->
  exists s', Pipeline.run (pipeline_of users rates) t d = Ok s'.
Proof.
  intros Hu Ha Hc Husr Hact Hp Hfx subtotal commission total t' Hfault Hnan.
  unfold Pipeline.run, pipeline_of; simpl.
  rewrite (ValidationFilter_accepts _ (Pipeline.start t d)); auto.
  unfold AuthFilter.process. rewrite get_transaction_start.
  cbn [AuthFilter.users]. rewrite Husr, Hact. simpl negb. cbv iota.
  unfold TransformFilter.process.
  rewrite get_transaction_present by reflexivity.
  cbn [TransformFilter.rates with_context tx Pipeline.start]. rewrite Hp.
  unfold FeeFilter.process.
  rewrite get_transaction_present by reflexivity.
  cbn [FeeFilter.rates with_tx with_context tx Pipeline.start
       Transaction.subtotal_base Transaction.set_subtotal_base
       Transaction.set_btc_price_in_base Transaction.base_currency
       Transaction.commission_usd]. rewrite Hfx.
  unfold StorageFilter.process.
  rewrite get_transaction_present by reflexivity.
  cbn -[PyFloat.round PyFloat.mul PyFloat.add insert lookup].
  match goal with |- context [Db.insert ?x d] => change x with t' end.
  rewrite (Db_insert_accepts t' d Hfault Hnan). eauto.
Qed.

(** What a failing run leaves behind. *)
Lemma run_Raise_state t d e s :
  Pipeline.run (pipeline_of users rates) t d = Raise e s ->
  db s = d /\
  context s !! "storage_result" = None /\
  context s !! "transaction" = Some VTransaction /\
  Transaction.user_id (tx s) = Transaction.user_id t /\
  Transaction.btc_amount (tx s) = Transaction.btc_amount t /\
  Transaction.base_currency (tx s) = Transaction.base_currency t /\
  Transaction.commission_usd (tx s) = Transaction.commission_usd t /\
  Transaction.ts_epoch (tx s) = Transaction.ts_epoch t.
Proof.
  unfold Pipeline.run, pipeline_of; simpl.
  destruct (ValidationFilter.process _ _) as [s1|e1 s1] eqn:E1.
  2:{ apply ValidationFilter_Raise in E1 as ->. intros [= _ <-].
      repeat split. }
  apply ValidationFilter_Ok in E1 as (-> & _).
  destruct (AuthFilter.process _ _) as [s2|e2 s2] eqn:E2.
  2:{ apply AuthFilter_Raise in E2 as ->. intros [= _ <-]. repeat split. }
  apply AuthFilter_Ok in E2 as (u & _ & _ & _ & ->).
  destruct (TransformFilter.process _ _) as [s3|e3 s3] eqn:E3.
  2:{ apply TransformFilter_Raise in E3 as ->. intros [= _ <-]. repeat split. }
  apply TransformFilter_Ok in E3 as (price & _ & _ & ->).
  destruct (FeeFilter.process _ _) as [s4|e4 s4] eqn:E4.
  2:{ apply FeeFilter_Raise in E4 as ->. intros [= _ <-]. repeat split. }
  apply FeeFilter_Ok in E4 as (sub & fx & _ & _ & _ & ->).
  destruct (StorageFilter.process _ _) as [s5|e5 s5] eqn:E5; [discriminate|].
  apply StorageFilter_Raise in E5 as ->. intros [= _ <-]. repeat split.
Qed.

End Runs.

(** With the fixed rate tables every failure of a run is one of three
    [PipelineError] kinds. *)
Lemma run_Raise_kind_fixed users t d e s :
  Pipeline.run (pipeline_of users FixedRateProvider.__init__) t d = Raise e s ->
  (exists msg, e = ValidationError msg) \/
  (exists msg, e = AuthError msg) \/
  (exists msg, e = StorageError msg).
Proof.
  intros Hrun.
  destruct (ValidationFilter.process ValidationFilter.mk (Pipeline.start t d))
    as [s1|e1 s1] eqn:E1.
  - apply ValidationFilter_Ok in E1 as (_ & _ & _ & _ & Hc). simpl in Hc.
    destruct (FixedRateProvider_supported _ Hc) as [[price Hp] [fx Hfx]].
    apply run_Raise_inv in Hrun as [Hm|[Hm|[Hm|[Hm|Hm]]]]; auto.
    + rewrite Hp in Hm. discriminate.
    + rewrite Hfx in Hm. discriminate.
  - left.
    unfold Pipeline.run, pipeline_of in Hrun; simpl in Hrun.
    rewrite E1 in Hrun. injection Hrun as <- _.
    eapply ValidationFilter_Raise_kind; [|exact E1]. reflexivity.
Qed.

(** The four filters that come before storage. *)
Lemma before_storage_Ok_inv {R : Type} `{RateProvider R}
    (users : gmap string User.t) (rates : R) t d s4 :
  Pipeline.loop (firstn 4 (Pipeline.filters (pipeline_of users rates)))
    (Pipeline.start t d) = Ok s4 ->
  Transaction.user_id t <> "" /\
  PyFloat.leb (Transaction.btc_amount t) PyFloat.zero = false /\
  In (Transaction.base_currency t) currencies /\
  exists u, users !! Transaction.user_id t = Some u /\ User.active u = true.
Proof.
  simpl.
  destruct (ValidationFilter.process _ _) as [s1|] eqn:E1; [|discriminate].
  apply ValidationFilter_Ok in E1 as (-> & _ & Hu & Ha & Hc).
  destruct (AuthFilter.process _ _) as [s2|] eqn:E2; [|discriminate].
  apply AuthFilter_Ok in E2 as (u & _ & Husr & Hact & ->).
  intros _. simpl in *. eauto 10.
Qed.

Lemma before_storage_intro (users : gmap string User.t) t d u :
  Transaction.user_id t <> "" ->
  PyFloat.leb (Transaction.btc_amount t) PyFloat.zero = false ->
  In (Transaction.base_currency t) currencies ->
  users !! Transaction.user_id t = Some u ->
  User.active u = true ->
  exists s4,
    Pipeline.loop
      (firstn 4 (Pipeline.filters
                   (pipeline_of users FixedRateProvider.__init__)))
      (Pipeline.start t d) = Ok s4.
Proof.
  intros Hu Ha Hc Husr Hact.
  destruct (FixedRateProvider_supported _ Hc) as [[price Hp] [fx Hfx]].
  simpl.
  rewrite (ValidationFilter_accepts _ (Pipeline.start t d)); auto.
  unfold AuthFilter.process. rewrite get_transaction_start.
  cbn [AuthFilter.users]. rewrite Husr, Hact. simpl negb. cbv iota.
  unfold TransformFilter.process.
  rewrite get_transaction_present by reflexivity.
  cbn [TransformFilter.rates with_context tx Pipeline.start]. rewrite Hp.
  unfold FeeFilter.process.
  rewrite get_transaction_present by reflexivity.
  cbn [FeeFilter.rates with_tx with_context tx Pipeline.start
       Transaction.subtotal_base Transaction.set_subtotal_base
       Transaction.set_btc_price_in_base Transaction.base_currency
       Transaction.commission_usd]. rewrite Hfx.
  eauto.
Qed.

Lemma run_is_storage_after {R : Type} `{RateProvider R}
    (users : gmap string User.t) (rates : R) t d s4 :
  Pipeline.loop (firstn 4 (Pipeline.filters (pipeline_of users rates)))
    (Pipeline.start t d) = Ok s4 ->
  Pipeline.run (pipeline_of users rates) t d
    = StorageFilter.process (StorageFilter.mk "transactions.db") s4.
Proof.
  intros Hfour. unfold Pipeline.run.
  change (Pipeline.filters (pipeline_of users rates))
    with (firstn 4 (Pipeline.filters (pipeline_of users rates))
          ++ [StorageFilter.process (StorageFilter.mk "transactions.db")])%list.
  rewrite (loop_app _ _ _ _ Hfour). simpl.
  destruct (StorageFilter.process _ s4); reflexivity.
Qed.

(** X7.  With the fixed rate tables, the four filters that come before
    storage all return exactly when the user identifier is not empty, the
    amount is not [<= 0], the currency is USD, EUR or GBP, and the directory
    has an active user under that identifier.  The outcome of the run is
    then the outcome of the storage filter on the state they leave, so a run
    returns only under these conditions. *)
Theorem run_reaches_storage_iff (users : gmap string User.t)
    (t : Transaction.t) (d : Db.t) :
  let p := pipeline_of users FixedRateProvider.__init__ in
  let before := firstn 4 (Pipeline.filters p) in
  let passes :=
    Transaction.user_id t <> "" /\
    PyFloat.leb (Transaction.btc_amount t) PyFloat.zero = false /\
    In (Transaction.base_currency t) currencies /\
    exists u, users !! Transaction.user_id t = Some u /\ User.active u = true in
  ((exists s4, Pipeline.loop before (Pipeline.start t d) = Ok s4) <-> passes) /\
  (forall s4,
     Pipeline.loop before (Pipeline.start t d) = Ok s4 ->
     Pipeline.run p t d
       = StorageFilter.process (StorageFilter.mk "transactions.db") s4) /\
  (forall s', Pipeline.run p t d = Ok s' -> passes).
Proof.
  intros p before passes. split; [split|split].
  - intros [s4 Hfour]. exact (before_storage_Ok_inv _ _ _ _ _ Hfour).
  - intros (Hu & Ha & Hc & u & Husr & Hact).
    exact (before_storage_intro users t d u Hu Ha Hc Husr Hact).
  - intros s4 Hfour. exact (run_is_storage_after _ _ _ _ _ Hfour).
  - intros s' Hrun.
    destruct (run_Ok_valid _ _ _ _ _ Hrun) as (Hu & Ha & Hc).
    apply run_Ok_inv in Hrun as (u & _ & _ & _ & Husr & Hact & _).
    unfold passes. eauto 10.
Qed.

Lemma run_reaches_storage_iff_witness :
  let before := firstn 4 (Pipeline.filters main_pipeline) in
  let s4 := state_of (Pipeline.loop before (Pipeline.start example_A Db.empty)) in
  Pipeline.loop before (Pipeline.start example_A Db.empty) = Ok s4 /\
  Pipeline.run main_pipeline example_A Db.empty
    = StorageFilter.process (StorageFilter.mk "transactions.db") s4.
Proof.
  intros before s4.
  assert (Hfour : Pipeline.loop before (Pipeline.start example_A Db.empty) = Ok s4)
    by (vm_compute; reflexivity).
  split; [exact Hfour|].
  exact (proj1 (proj2 (run_reaches_storage_iff load_mock_users example_A Db.empty))
           s4 Hfour).
Defined.

(** X8.  A run that fails leaves the store as it was, the context without a
    storage result, and the five fields the caller gave the transaction
    unchanged.  With the fixed rate tables, when the failure is a
    [PipelineError], the kind that [main] reports for it is a validation,
    authentication or storage failure, never a transform failure. *)
Theorem failing_run_frame (users : gmap string User.t)
    (t : Transaction.t) (d : Db.t) (e : Exception) (s : State) :
  Pipeline.run (pipeline_of users FixedRateProvider.__init__) t d = Raise e s ->
  db s = d /\
  context s !! "storage_result" = None /\
  Transaction.user_id (tx s) = Transaction.user_id t /\
  Transaction.btc_amount (tx s) = Transaction.btc_amount t /\
  Transaction.base_currency (tx s) = Transaction.base_currency t /\
  Transaction.commission_usd (tx s) = Transaction.commission_usd t /\
  Transaction.ts_epoch (tx s) = Transaction.ts_epoch t /\
  (forall name msg,
     except_PipelineError e = Some (name, msg) ->
     In name ["ValidationError"; "AuthError"; "StorageError"]).
Proof.
  intros Hrun.
  destruct (run_Raise_state _ _ _ _ _ _ Hrun)
    as (Hdb & Hres & _ & H1 & H2 & H3 & H4 & H5).
  repeat (split; [assumption|]).
  intros name msg.
  destruct (run_Raise_kind_fixed _ _ _ _ _ Hrun) as [[m ->]|[[m ->]|[m ->]]];
    simpl; intros [= <- _]; auto.
Qed.

Lemma failing_run_frame_witness :
  let r := Pipeline.run main_pipeline example_D Db.empty in
  r = Raise (AuthError "Usuario u999 no existe.") (state_of r) /\
  db (state_of r) = Db.empty /\
  In "AuthError" ["ValidationError"; "AuthError"; "StorageError"].
Proof.
  intros r.
  assert (Hrun : r = Raise (AuthError "Usuario u999 no existe.") (state_of r))
    by reflexivity.
  destruct (failing_run_frame load_mock_users example_D Db.empty _ _ Hrun)
    as (Hdb & _ & _ & _ & _ & _ & _ & Hkind).
  split; [exact Hrun|]. split; [exact Hdb|].
  exact (Hkind "AuthError" "Usuario u999 no existe." eq_refl).
Defined.

(** ** Row identifiers *)

Lemma insert_ids_fresh t d d' :
  ids_fresh d -> Db.insert t d = inr d' -> ids_fresh d'.
Proof.
  intros [Hnd Hle] Hins.
  apply Db_insert_inr in Hins as (_ & _ & ->).
  unfold ids_fresh; simpl. split.
  - rewrite map_app. apply NoDup_app. split; [exact Hnd|]. split.
    + intros x Hx Hnew. simpl in Hnew.
      apply list_elem_of_singleton in Hnew. subst x.
      apply list_elem_of_In, in_map_iff in Hx as (r & Hr & Hin).
      rewrite Forall_forall in Hle. apply list_elem_of_In in Hin.
      specialize (Hle r Hin). lia.
    + simpl. apply NoDup_singleton.
  - apply Forall_app. split.
    + eapply Forall_impl; [exact Hle|]. simpl. intros r Hr. lia.
    + constructor; [simpl; lia | constructor].
Qed.

(** X9.  If the row identifiers are pairwise distinct and none exceeds the
    AUTOINCREMENT counter, the same holds after a run of the pipeline,
    whether it returned or raised. *)
Theorem run_keeps_ids_fresh {R : Type} `{RateProvider R}
    (users : gmap string User.t) (rates : R) (t : Transaction.t) (d : Db.t) :
  ids_fresh d ->
  ids_fresh (db (state_of (Pipeline.run (pipeline_of users rates) t d))).
Proof.
  intros Hd.
  destruct (Pipeline.run (pipeline_of users rates) t d) as [s'|e s] eqn:Hrun.
  - apply run_Ok_inv in Hrun as (u & price & fx & d' & _ & _ & _ & _ & Hins & ->).
    simpl. exact (insert_ids_fresh _ _ _ Hd Hins).
  - apply run_Raise_state in Hrun as (Hdb & _). simpl. rewrite Hdb. exact Hd.
Qed.

Lemma run_keeps_ids_fresh_witness :
  ids_fresh Db.empty /\
  ids_fresh (db (state_of (Pipeline.run main_pipeline example_A Db.empty))).
Proof.
  assert (Hd : ids_fresh Db.empty).
  { split; simpl; constructor. }
  split; [exact Hd|].
  exact (run_keeps_ids_fresh load_mock_users FixedRateProvider.__init__
           example_A Db.empty Hd).
Defined.

(** ** Signs and NaN *)

Lemma binary_round_aux_plus m e l :
  nan_or_plus (binary_round_aux PyFloat.prec PyFloat.emax false m e l).
Proof.
  unfold binary_round_aux.
  destruct (shr_fexp _ _ m e l) as [mrs' e'].
  destruct (shr_fexp _ _ _ e' loc_Exact) as [mrs'' e''].
  destruct (shr_m mrs''); simpl; auto.
  destruct (Z.leb _ _); simpl; auto.
Qed.

Lemma of_ratio_plus n d : nan_or_plus (PyFloat.of_ratio false n d).
Proof.
  unfold PyFloat.of_ratio.
  destruct n; simpl; auto;
    destruct (SFdiv_core_binary _ _ _ _ _ _) as [[mz ez] lz];
    apply binary_round_aux_plus.
Qed.

Lemma round_plus x n : nan_or_plus x -> nan_or_plus (PyFloat.round x n).
Proof.
  destruct x as [s|s| |s m e]; simpl; auto.
  intros ->. apply of_ratio_plus.
Qed.

Lemma mul_plus x y :
  nan_or_plus x -> nan_or_plus y -> nan_or_plus (PyFloat.mul x y).
Proof.
  unfold PyFloat.mul.
  destruct x as [sx|sx| |sx mx ex], y as [sy|sy| |sy my ey]; simpl; auto;
    intros -> ->; simpl; auto.
  apply binary_round_aux_plus.
Qed.

Lemma above_zero_plus x : PyFloat.leb x PyFloat.zero = false -> nan_or_plus x.
Proof. destruct x as [s|[]| |[] m e]; simpl; auto; discriminate. Qed.

Lemma plus_not_below_zero x : nan_or_plus x -> SFltb x PyFloat.zero = false.
Proof. destruct x as [s|s| |s m e]; simpl; auto; intros ->; reflexivity. Qed.

Lemma FixedRateProvider_price_plus c price :
  In c currencies ->
  get_btc_price FixedRateProvider.__init__ c = inr price ->
  nan_or_plus price.
Proof.
  simpl. intros [<-|[<-|[<-|[]]]]; vm_compute; intros [= <-]; reflexivity.
Qed.

(** X10.  With the fixed rate tables, the subtotal a successful run leaves
    in the transaction is never below zero: [subtotal_base < 0] is false. *)
Theorem subtotal_never_negative (users : gmap string User.t)
    (t : Transaction.t) (d : Db.t) (s' : State) (subtotal : float) :
  Pipeline.run (pipeline_of users FixedRateProvider.__init__) t d = Ok s' ->
  Transaction.subtotal_base (tx s') = Some subtotal ->
  SFltb subtotal PyFloat.zero = false.
Proof.
  intros Hrun Hsub.
  destruct (run_Ok_valid _ _ _ _ _ Hrun) as (_ & Ha & Hc).
  apply run_Ok_inv in Hrun as (u & price & fx & d' & _ & _ & Hp & _ & _ & ->).
  simpl in Hsub. injection Hsub as <-.
  apply plus_not_below_zero, round_plus, mul_plus.
  - exact (FixedRateProvider_price_plus _ _ Hc Hp).
  - exact (above_zero_plus _ Ha).
Qed.

Lemma subtotal_never_negative_witness :
  let r := Pipeline.run main_pipeline example_B Db.empty in
  r = Ok (state_of r) /\
  Transaction.subtotal_base (tx (state_of r)) = Some (PyFloat.dec 305000 2) /\
  SFltb (PyFloat.dec 305000 2) PyFloat.zero = false.
Proof.
  intros r.
  assert (Hrun : r = Ok (state_of r)) by (vm_compute; reflexivity).
  assert (Hsub : Transaction.subtotal_base (tx (state_of r))
                 = Some (PyFloat.dec 305000 2)) by (vm_compute; reflexivity).
  split; [exact Hrun|]. split; [exact Hsub|].
  exact (subtotal_never_negative load_mock_users example_B Db.empty
           (state_of r) _ Hrun Hsub).
Defined.

(** X11.  A NaN amount is not stopped by validation ([nan <= 0] is false):
    with a user identifier and a supported currency the validation filter
    returns, the conversion filter then stores NaN as subtotal, and the fee
    filter after it stores NaN as total. *)
Theorem nan_amount_passes_validation {R : Type} `{RateProvider R}
    (rates : R) (s : State) :
  context s !! "transaction" = Some VTransaction ->
  Transaction.user_id (tx s) <> "" ->
  In (Transaction.base_currency (tx s)) currencies ->
  Transaction.btc_amount (tx s) = S754_nan ->
  ValidationFilter.process ValidationFilter.mk s = Ok s /\
  (forall s1,
     TransformFilter.process (TransformFilter.mk rates) s = Ok s1 ->
     Transaction.subtotal_base (tx s1) = Some S754_nan /\
     (forall s2,
        FeeFilter.process (FeeFilter.mk rates) s1 = Ok s2 ->
        Transaction.subtotal_base (tx s2) = Some S754_nan /\
        Transaction.total_base (tx s2) = Some S754_nan)).
Proof.
  intros Hctx Hu Hc Hnan. split.
  - apply ValidationFilter_accepts; auto. rewrite Hnan. reflexivity.
  - intros s1 H1.
    apply TransformFilter_Ok in H1 as (price & _ & _ & ->).
    assert (Hmul : PyFloat.mul price (Transaction.btc_amount (tx s)) = S754_nan).
    { rewrite Hnan. destruct price; reflexivity. }
    rewrite Hmul. simpl. split; [reflexivity|].
    intros s2 H2.
    apply FeeFilter_Ok in H2 as (sub & fx & _ & Hsub & _ & ->).
    simpl in Hsub. injection Hsub as <-. simpl. auto.
Qed.

Lemma nan_amount_passes_validation_witness :
  let t := Transaction.new (Transaction.class_statement 1000) 2000
             "u001" S754_nan "USD" in
  let s := Pipeline.start t Db.empty in
  ValidationFilter.process ValidationFilter.mk s = Ok s /\
  exists s1,
    TransformFilter.process (TransformFilter.mk FixedRateProvider.__init__) s
      = Ok s1 /\
    Transaction.subtotal_base (tx s1) = Some S754_nan.
Proof.
  intros t s.
  assert (Hu : Transaction.user_id (tx s) <> "") by discriminate.
  assert (Hc : In (Transaction.base_currency (tx s)) currencies)
    by (simpl; auto).
  destruct (nan_amount_passes_validation FixedRateProvider.__init__ s
              eq_refl Hu Hc eq_refl) as [Hvalid Hnext].
  split; [exact Hvalid|].
  eexists. split; [reflexivity|].
  apply Hnext. reflexivity.
Defined.

(** ** The fee filter twice, and pipelines end to end *)

(** X12.  The fee filter is idempotent, whatever the rate provider: applied
    to the state it returned, it returns that state again. *)
Theorem fee_idempotent {R : Type} `{RateProvider R}
    (self : FeeFilter.t R) (s s1 : State) :
  FeeFilter.process self s = Ok s1 ->
  FeeFilter.process self s1 = Ok s1.
Proof.
  intros Hok.
  apply FeeFilter_Ok in Hok as (sub & fx & Hctx & Hsub & Hfx & ->).
  unfold FeeFilter.process.
  rewrite !get_transaction_with_tx, (get_transaction_present _ Hctx).
  destruct s as [[] ? ?]; simpl in *. rewrite Hsub, Hfx. reflexivity.
Qed.

Lemma fee_idempotent_witness :
  let fee := FeeFilter.process (FeeFilter.mk FixedRateProvider.__init__) in
  let s := Pipeline.start example_A_complete Db.empty in
  fee s = Ok (state_of (fee s)) /\
  fee (state_of (fee s)) = Ok (state_of (fee s)).
Proof.
  intros fee s.
  assert (Hok : fee s = Ok (state_of (fee s))) by (vm_compute; reflexivity).
  split; [exact Hok|].
  exact (fee_idempotent (FeeFilter.mk FixedRateProvider.__init__) s _ Hok).
Defined.

(** X13.  Running the filters of [a ++ b] is running those of [a] and then,
    if none of them raised, those of [b] on the state they left; if one
    raised, that failure is the outcome and no filter of [b] is applied. *)
Theorem loop_composes (a b : list Filter) (s : State) :
  Pipeline.loop (a ++ b) s =
  match Pipeline.loop a s with
  | Ok s' => Pipeline.loop b s'
  | Raise e s' => Raise e s'
  end.
Proof.
  revert s. induction a as [|f a IH]; intros s; simpl.
  - reflexivity.
  - destruct (f s) as [s'|e s']; [apply IH | reflexivity].
Qed.

(** ** The batch of [main] *)

Lemma main_loop_cons (users : gmap string User.t) t rest d acc :
  let p := pipeline_of users FixedRateProvider.__init__ in
  exists x new,
    main_loop p (t :: rest) d acc
      = main_loop p rest (db (state_of (Pipeline.run p t d))) (acc ++ [x]) /\
    entry_for users t x /\
    Db.rows (db (state_of (Pipeline.run p t d))) = (Db.rows d ++ new)%list /\
    length new = length (List.filter is_EntryOk [x]).
Proof.
  intros p. simpl main_loop.
  destruct (Pipeline.run p t d) as [s|e s] eqn:Hrun.
  - apply run_Ok_inv in Hrun
      as (u & price & fx & d' & Husr & Hact & _ & _ & Hins & ->).
    apply Db_insert_inr in Hins as (_ & _ & ->).
    cbn [context tx db state_of].
    replace (_ !! "user") with (Some (VUser u)) by reflexivity.
    replace (_ !! "storage_result") with (Some (VStr "ok")) by reflexivity.
    cbn [asdict].
    eexists _, [_]. split; [reflexivity|].
    split; [|split; reflexivity].
    simpl. unfold same_input. simpl. eauto 20.
  - destruct (run_Raise_state _ _ _ _ _ _ Hrun)
      as (Hdb & _ & _ & H1 & H2 & H3 & H4 & H5).
    assert (exists name msg,
               except_PipelineError e = Some (name, msg) /\
               In name ["ValidationError"; "AuthError"; "StorageError"])
      as (name & msg & -> & Hname).
    { destruct (run_Raise_kind_fixed _ _ _ _ _ Hrun) as [[m ->]|[[m ->]|[m ->]]];
        eexists _, m; (split; [reflexivity|]); simpl; auto. }
    cbn [state_of]. rewrite Hdb.
    eexists _, []. split; [reflexivity|].
    split; [|split; [rewrite app_nil_r|]; reflexivity].
    simpl. unfold same_input. auto 10.
Qed.

Lemma main_loop_spec (users : gmap string User.t) examples :
  forall d acc,
  exists results d' new,
    main_loop (pipeline_of users FixedRateProvider.__init__) examples d acc
      = inr ((acc ++ results)%list, d') /\
    Forall2 (entry_for users) examples results /\
    Db.rows d' = (Db.rows d ++ new)%list /\
    length new = length (List.filter is_EntryOk results) /\
    Db.seq d' = (Db.seq d + Z.of_nat (length new))%Z.
Proof.
  induction examples as [|t rest IH]; intros d acc.
  - exists [], d, []. simpl. rewrite !app_nil_r.
    repeat split; [constructor | lia].
  - destruct (main_loop_cons users t rest d acc) as (x & new & Hstep & Hx & Hrows & Hlen).
    set (d1 := db (state_of (Pipeline.run
                 (pipeline_of users FixedRateProvider.__init__) t d))) in *.
    destruct (IH d1 (acc ++ [x])%list) as (results & d' & new' & Hrest & Hall & Hrows' & Hlen' & Hseq').
    exists (x :: results), d', (new ++ new')%list.
    rewrite Hstep, Hrest, <- app_assoc. simpl app.
    split; [reflexivity|]. split; [constructor; assumption|].
    split; [rewrite Hrows', Hrows, app_assoc; reflexivity|].
    assert (Hseq1 : Db.seq d1 = (Db.seq d + Z.of_nat (length new))%Z).
    { subst d1.
      destruct (Pipeline.run _ t d) as [s|e s] eqn:Hrun.
      - apply run_Ok_inv in Hrun
          as (u & price & fx & d0 & _ & _ & _ & _ & Hins & ->).
        apply Db_insert_inr in Hins as (_ & _ & ->).
        simpl in Hrows. apply app_inv_head in Hrows. subst new. simpl. lia.
      - apply run_Raise_state in Hrun as (Hdb & _). simpl in *.
        rewrite Hdb in Hrows |- *.
        rewrite <- (app_nil_r (Db.rows d)) in Hrows at 1.
        apply app_inv_head in Hrows. subst new. simpl. lia. }
    split.
    + rewrite length_app, Hlen, Hlen'.
      change (x :: results) with ([x] ++ results)%list.
      rewrite List.filter_app, length_app. reflexivity.
    + rewrite Hseq', Hseq1, length_app. lia.
Qed.

(** Examples for the batch loop: an inactive user, an unknown one, and the
    first example of [main]. *)
Lemma batch_example_run :
  let p := pipeline_of load_mock_users FixedRateProvider.__init__ in
  let out := main_loop p [example_C; example_D; example_A] Db.empty [] in
  exists results d',
    out = inr (results, d') /\
    map is_EntryOk results = [false; false; true] /\
    map Db.id (Db.rows d') = [1%Z].
Proof.
  intros p out.
  exists (match out with inr (results, _) => results | inl _ => [] end),
         (match out with inr (_, d') => d' | inl (_, d') => d' end).
  repeat split; vm_compute; reflexivity.
Defined.

(** X14.  When the batch loop ends normally, with the fixed rate tables, its
    result list has one entry per example, in order.  A success entry
    carries the completed transaction, the active user found for it and the
    storage result "ok"; a failure entry names a validation, authentication
    or storage failure.  Both show the example's own five input fields. *)
Theorem batch_reports_every_example (users : gmap string User.t)
    (examples : list Transaction.t) (d d' : Db.t) (results : list Entry) :
  main_loop (pipeline_of users FixedRateProvider.__init__) examples d []
    = inr (results, d') ->
  Forall2 (entry_for users) examples results.
Proof.
  intros Hloop.
  destruct (main_loop_spec users examples d [])
    as (results0 & d0 & new & Hloop0 & Hall & _).
  rewrite Hloop in Hloop0. simpl in Hloop0. injection Hloop0 as <- _.
  exact Hall.
Qed.

Lemma batch_reports_every_example_witness :
  exists results d',
    main_loop main_pipeline [example_C; example_D; example_A] Db.empty []
      = inr (results, d') /\
    Forall2 (entry_for load_mock_users) [example_C; example_D; example_A] results.
Proof.
  destruct batch_example_run as (results & d' & Hloop & _).
  exists results, d'. split; [exact Hloop|].
  exact (batch_reports_every_example load_mock_users _ Db.empty d' results Hloop).
Defined.

(** X15.  When the batch loop ends normally, the store has grown by exactly
    one row per success entry: the rows it had are kept in front, failures
    have added nothing, and the AUTOINCREMENT counter has advanced by the
    number of successes. *)
Theorem batch_rows_match_successes (users : gmap string User.t)
    (examples : list Transaction.t) (d d' : Db.t) (results : list Entry) :
  main_loop (pipeline_of users FixedRateProvider.__init__) examples d []
    = inr (results, d') ->
  exists new,
    Db.rows d' = (Db.rows d ++ new)%list /\
    length new = length (List.filter is_EntryOk results) /\
    Db.seq d' = (Db.seq d + Z.of_nat (length new))%Z.
Proof.
  intros Hloop.
  destruct (main_loop_spec users examples d [])
    as (results0 & d0 & new & Hloop0 & _ & Hrows & Hlen & Hseq).
  rewrite Hloop in Hloop0. simpl in Hloop0. injection Hloop0 as <- <-.
  exists new. auto.
Qed.

Lemma batch_rows_match_successes_witness :
  exists results d' new,
    main_loop main_pipeline [example_C; example_D; example_A] Db.empty []
      = inr (results, d') /\
    Db.rows d' = (Db.rows Db.empty ++ new)%list /\
    length new = length (List.filter is_EntryOk results).
Proof.
  destruct batch_example_run as (results & d' & Hloop & _).
  destruct (batch_rows_match_successes load_mock_users _ Db.empty d' results Hloop)
    as (new & Hrows & Hlen & _).
  exists results, d', new. auto.
Defined.

Lemma main_loop_ok_step (users : gmap string User.t) t rest d acc u :
  let p := pipeline_of users FixedRateProvider.__init__ in
  Transaction.user_id t <> "" ->
  PyFloat.leb (Transaction.btc_amount t) PyFloat.zero = false ->
  In (Transaction.base_currency t) currencies ->
  users !! Transaction.user_id t = Some u ->
  User.active u = true ->
  (forall x, Db.fault d x = None) ->
  Transaction.btc_amount t <> S754_nan ->
  exists x d1,
    main_loop p (t :: rest) d acc = main_loop p rest d1 (acc ++ [x]) /\
    is_EntryOk x = true /\
    (forall x, Db.fault d1 x = None) /\
    map Db.id (Db.rows d1) = (map Db.id (Db.rows d) ++ [Db.seq d + 1])%list%Z /\
    Db.seq d1 = (Db.seq d + 1)%Z.
Proof.
  intros p Hu Ha Hc Husr Hact Hfault Hnan.
  destruct (FixedRateProvider_supported _ Hc) as [[price Hp] [fx Hfx]].
  destruct (run_Ok_intro users FixedRateProvider.__init__ t d u price fx
              Hu Ha Hc Husr Hact Hp Hfx (Hfault _) Hnan) as [s Hrun].
  subst p. cbn [main_loop]. rewrite Hrun.
  apply run_Ok_inv in Hrun
    as (u' & price' & fx' & d' & _ & _ & _ & _ & Hins & ->).
  apply Db_insert_inr in Hins as (_ & _ & ->).
  cbn [context tx db].
  replace (_ !! "user") with (Some (VUser u')) by reflexivity.
  cbn [asdict].
  eexists _, _. split; [reflexivity|].
  split; [reflexivity|]. split; [exact Hfault|].
  simpl. rewrite map_app. split; reflexivity.
Qed.

(** X16.  On a store that refuses nothing, [main] reports three successes,
    one per example, and leaves three new rows numbered consecutively after
    the counter. *)
Theorem main_reports_three_successes (cls : Transaction.cls) (now : Z)
    (d : Db.t) :
  (forall x, Db.fault d x = None) ->
  exists results d',
    main cls now d = inr (results, d') /\
    map is_EntryOk results = [true; true; true] /\
    map Db.id (Db.rows d') =
      (map Db.id (Db.rows d) ++
       [Db.seq d + 1; Db.seq d + 2; Db.seq d + 3])%list%Z.
Proof.
  intros Hfault. unfold main.
  edestruct (main_loop_ok_step load_mock_users) as (x1 & d1 & -> & Hx1 & Hf1 & Hr1 & Hs1);
    [| | | | | exact Hfault | |];
    [discriminate | reflexivity | simpl; auto | reflexivity | reflexivity
    | discriminate |].
  edestruct (main_loop_ok_step load_mock_users) as (x2 & d2 & -> & Hx2 & Hf2 & Hr2 & Hs2);
    [| | | | | exact Hf1 | |];
    [discriminate | reflexivity | simpl; auto | reflexivity | reflexivity
    | discriminate |].
  edestruct (main_loop_ok_step load_mock_users) as (x3 & d3 & -> & Hx3 & Hf3 & Hr3 & Hs3);
    [| | | | | exact Hf2 | |];
    [discriminate | reflexivity | simpl; auto | reflexivity | reflexivity
    | discriminate |].
  simpl main_loop. eexists _, _. split; [reflexivity|].
  split.
  - simpl. rewrite Hx1, Hx2, Hx3. reflexivity.
  - rewrite Hr3, Hr2, Hr1, Hs2, Hs1, <- !app_assoc. simpl.
    replace (Db.seq d + 1 + 1)%Z with (Db.seq d + 2)%Z by lia.
    replace (Db.seq d + 2 + 1)%Z with (Db.seq d + 3)%Z by lia.
    reflexivity.
Qed.

Lemma main_reports_three_successes_witness :
  (forall x, Db.fault Db.empty x = None) /\
  exists results d',
    main (Transaction.class_statement 1000) 2000 Db.empty = inr (results, d') /\
    map is_EntryOk results = [true; true; true] /\
    map Db.id (Db.rows d') = [1; 2; 3]%Z.
Proof.
  assert (Hfault : forall x, Db.fault Db.empty x = None) by reflexivity.
  split; [exact Hfault|].
  exact (main_reports_three_successes (Transaction.class_statement 1000) 2000
           Db.empty Hfault).
Defined.

(** ** What a successful run computes and stores *)

(** X17.  After a successful run the computed fields are functions of the
    input alone: the price is the provider's BTC price for the currency, the
    subtotal is price times amount rounded to two decimals, the commission is
    the USD commission times the provider's USD rate rounded to two decimals,
    and the total is their sum rounded to two decimals. *)
Theorem run_result_closed_form {R : Type} `{RateProvider R}
    (users : gmap string User.t) (rates : R) (t : Transaction.t) (d : Db.t)
    (s' : State) :
  Pipeline.run (pipeline_of users rates) t d = Ok s' ->
  exists price fx,
    get_btc_price rates (Transaction.base_currency t) = inr price /\
    usd_to rates (Transaction.base_currency t) = inr fx /\
    let subtotal := PyFloat.round (PyFloat.mul price (Transaction.btc_amount t)) 2 in
    let commission :=
      PyFloat.round (PyFloat.mul (Transaction.commission_usd t) fx) 2 in
    Transaction.btc_price_in_base (tx s') = Some price /\
    Transaction.subtotal_base (tx s') = Some subtotal /\
    Transaction.commission_base (tx s') = Some commission /\
    Transaction.total_base (tx s')
      = Some (PyFloat.round (PyFloat.add subtotal commission) 2).
Proof.
  intros Hrun.
  apply run_Ok_inv in Hrun as (u & price & fx & d' & _ & _ & Hp & Hfx & _ & ->).
  exists price, fx. simpl. auto 10.
Qed.

Lemma run_result_closed_form_witness :
  let r := Pipeline.run main_pipeline example_B Db.empty in
  r = Ok (state_of r) /\
  exists price fx,
    get_btc_price FixedRateProvider.__init__ "EUR" = inr price /\
    usd_to FixedRateProvider.__init__ "EUR" = inr fx /\
    Transaction.total_base (tx (state_of r))
      = Some (PyFloat.round
                (PyFloat.add
                   (PyFloat.round (PyFloat.mul price (PyFloat.dec 5 2)) 2)
                   (PyFloat.round (PyFloat.mul (PyFloat.dec 500 2) fx) 2)) 2).
Proof.
  intros r.
  assert (Hrun : r = Ok (state_of r)) by (vm_compute; reflexivity).
  split; [exact Hrun|].
  destruct (run_result_closed_form load_mock_users FixedRateProvider.__init__
              example_B Db.empty (state_of r) Hrun)
    as (price & fx & Hp & Hfx & _ & _ & _ & Htot).
  exists price, fx. split; [exact Hp|]. split; [exact Hfx|]. exact Htot.
Defined.

(** X18.  A successful run adds exactly one row to the store, after the rows
    already there: its identifier is the counter plus one and its columns
    hold the fields of the transaction as the run left it, each float as
    SQLite keeps it (NULL for NaN, [0.0] for a negative zero).  The amount of
    such a transaction is not NaN, which the NOT NULL column would refuse.
    The context the run returns has the three keys "transaction", "user" and
    "storage_result" and no other. *)
Theorem run_persists_final_record {R : Type} `{RateProvider R}
    (users : gmap string User.t) (rates : R) (t : Transaction.t) (d : Db.t)
    (s' : State) :
  Pipeline.run (pipeline_of users rates) t d = Ok s' ->
  Db.rows (db s') =
    (Db.rows d ++ [Db.row_of (Db.seq d + 1) (tx s')])%list /\
  Db.seq (db s') = (Db.seq d + 1)%Z /\
  Transaction.btc_amount t <> S754_nan /\
  exists u,
    users !! Transaction.user_id t = Some u /\
    context s' =
      <["storage_result" := VStr "ok"]>
        (<["user" := VUser u]> {["transaction" := VTransaction]}).
Proof.
  intros Hrun.
  apply run_Ok_inv in Hrun as (u & price & fx & d' & Husr & _ & _ & _ & Hins & ->).
  apply Db_insert_inr in Hins as (_ & Hnan & ->).
  simpl in *. eauto 10.
Qed.

Lemma run_persists_final_record_witness :
  let r := Pipeline.run main_pipeline example_A Db.empty in
  r = Ok (state_of r) /\
  Db.rows (db (state_of r)) = [Db.row_of 1 example_A_complete].
Proof.
  intros r.
  assert (Hrun : r = Ok (state_of r)) by (vm_compute; reflexivity).
  split; [exact Hrun|].
  destruct (run_persists_final_record load_mock_users FixedRateProvider.__init__
              example_A Db.empty (state_of r) Hrun) as (Hrows & _).
  rewrite Hrows. vm_compute. reflexivity.
Defined.
